(* ===================================================================== *)
(* snow_api: a Salt execution module that fetches and updates ServiceNow  *)
(* records through the pysnow client library.                             *)
(*                                                                        *)
(* The development has three layers:                                      *)
(*   Py       the Python built-ins the module relies on (str.split, list  *)
(*            indexing, itertools.islice, exceptions);                    *)
(*   pysnow   the part of the pysnow client the module calls (Client,     *)
(*            Resource.get/update, Response.one/first/all/update), run    *)
(*            against an abstract ServiceNow instance;                    *)
(*   the module itself (src/_modules/snow_api.py), function by function.  *)
(* Effects are threaded explicitly: every operation is a function from    *)
(* the state of the world (remote tables, wire trace, log) to a result    *)
(* (a value or a raised exception) and the new state.                     *)
(* ===================================================================== *)

From stdpp Require Import gmap strings list fin_maps.
From Stdlib Require Import ZArith Ascii String.

Local Open Scope string_scope.
Local Open Scope list_scope.

(* --------------------------------------------------------------------- *)
(* Data                                                                    *)
(* --------------------------------------------------------------------- *)

(** A ServiceNow record, a query filter and an update payload are all
    Python dicts from field names to values. *)
Abbreviation record := (gmap string string).

(** Exceptions that can leave the module: Python's own and pysnow's. *)
Inductive exn : Type :=
  | KeyError (key : string)
  | TypeError
  | IndexError
  | ValueError
  | InvalidUsage
  | NoResults
  | MultipleResults.

Inductive result (A : Type) : Type :=
  | Ok (a : A)
  | Raise (e : exn).
Arguments Ok {A} a.
Arguments Raise {A} e.

(** What goes over the wire, in order. [StreamRead] is one record pulled
    out of a streamed response body by the generator of [Response.all]. *)
Inductive event : Type :=
  | HttpGet (api_path : string) (query : record)
  | HttpPut (api_path : string) (sys_id : string) (payload : record)
  | StreamRead (r : record).

Inductive log_entry : Type :=
  | LogError (msg : string)
  | LogDebug (msg : string).

(** The world outside the module: the tables of the ServiceNow instance
    (by API path, rows in the order the instance yields them), the trace
    of network activity and the messages handed to [logging]. *)
Record world : Type := World {
  tables : gmap string (list record);
  wire : list event;
  log : list log_entry
}.

(** Values of the Salt configuration: the [service_now] entry is a dict of
    strings, and [config.get] answers the empty string for a missing key. *)
Inductive pyval : Type :=
  | PyStr (s : string)
  | PyDict (d : record).

(* --------------------------------------------------------------------- *)
(* The effect monad                                                        *)
(* --------------------------------------------------------------------- *)

Definition M (A : Type) : Type := world → result A * world.

Definition ret {A} (a : A) : M A := λ w, (Ok a, w).
Definition raise {A} (e : exn) : M A := λ w, (Raise e, w).
Definition bind {A B} (m : M A) (k : A → M B) : M B :=
  λ w, match m w with
       | (Ok a, w') => k a w'
       | (Raise e, w') => (Raise e, w')
       end.

(** [try: ... except e: ...] for one exception class. *)
Definition catch {A} (m : M A) (is_e : exn → bool) (h : M A) : M A :=
  λ w, match m w with
       | (Raise e, w') => if is_e e then h w' else (Raise e, w')
       | r => r
       end.

Definition emit (e : event) : M unit :=
  λ w, (Ok tt, World (tables w) (wire w ++ [e]) (log w)).
Definition logging (l : log_entry) : M unit :=
  λ w, (Ok tt, World (tables w) (wire w) (log w ++ [l])).
Definition read_table (api_path : string) : M (list record) :=
  λ w, (Ok (default [] (tables w !! api_path)), w).
Definition write_table (api_path : string) (rows : list record) : M unit :=
  λ w, (Ok tt, World (<[api_path := rows]> (tables w)) (wire w) (log w)).

Declare Scope py_scope.
Delimit Scope py_scope with py.
Notation "x <- c ;; k" := (bind c (λ x, k))
  (at level 100, c at next level, right associativity) : py_scope.
Notation "c ;;; k" := (bind c (λ _, k))
  (at level 100, right associativity) : py_scope.
Local Open Scope py_scope.

(* --------------------------------------------------------------------- *)
(* Python built-ins                                                        *)
(* --------------------------------------------------------------------- *)

Module Py.

(** [s.split(sep)] for a one-character separator: every occurrence of
    [sep] cuts, so the result has one part more than [s] has separators
    and is never empty. *)
Fixpoint split (sep : ascii) (s : string) : list string :=
  match s with
  | EmptyString => [EmptyString]
  | String c s' =>
      if Ascii.eqb c sep then EmptyString :: split sep s'
      else match split sep s' with
           | part :: parts => String c part :: parts
           | [] => [String c EmptyString]
           end
  end.

(** [l[i]] for [i >= 0]: IndexError out of range. *)
Definition getitem {A} (l : list A) (i : nat) : M A :=
  match l !! i with
  | Some x => ret x
  | None => raise IndexError
  end.

(** Truth value of a string or a dict. *)
Definition truthy (v : pyval) : bool :=
  match v with
  | PyStr s => negb (String.eqb s "")
  | PyDict d => negb (bool_decide (d = ∅))
  end.

(** [v[key]] on a configuration value: a dict raises KeyError for a
    missing key, a string cannot be indexed by a string. *)
Definition subscript (v : pyval) (key : string) : M string :=
  match v with
  | PyDict d => match d !! key with
                | Some x => ret x
                | None => raise (KeyError key)
                end
  | PyStr _ => raise TypeError
  end.

(** A generator over the rows of a streamed response: the rows not yet
    produced. [next] pulls one row over the wire. *)
Definition generator := list record.

Definition next (it : generator) : M (option record * generator) :=
  match it with
  | [] => ret (None, [])
  | r :: it' => emit (StreamRead r) ;;; ret (Some r, it')
  end.

(** The loop of [list(islice(it, stop))]: [next] is called only while
    fewer than [stop] items have been produced. *)
Fixpoint islice_items (stop : nat) (it : generator) : M (list record) :=
  match stop with
  | O => ret []
  | S stop' =>
      nx <- next it ;;
      match nx with
      | (None, _) => ret []
      | (Some r, it') => rs <- islice_items stop' it' ;; ret (r :: rs)
      end
  end.

(** [sys.maxsize] of a 64-bit CPython. *)
Definition maxsize : Z := 2 ^ 63 - 1.

(** [list(islice(it, stop))] for an integer [stop]: a stop outside
    0 <= stop <= sys.maxsize is rejected with ValueError when the islice
    object is built, before anything is pulled from [it]. Python integers
    are unbounded, so [stop] is a [Z]. *)
Definition list_islice (it : generator) (stop : Z) : M (list record) :=
  if ((stop <? 0) || (maxsize <? stop))%Z then raise ValueError
  else islice_items (Z.to_nat stop) it.

(** The call [f(x, **kwargs)] of a function whose first parameter is
    named [param]: [x] is bound to [param], and a keyword of the same
    name is refused with TypeError (multiple values for the argument)
    before the body of [f] runs. *)
Definition bind_keywords (param : string) (kwargs : record) : M unit :=
  match kwargs !! param with
  | Some _ => raise TypeError
  | None => ret tt
  end.

End Py.

(* --------------------------------------------------------------------- *)
(* The pysnow client, against an abstract ServiceNow instance              *)
(* --------------------------------------------------------------------- *)

(* pysnow is the third-party library the module imports; the definitions
   below follow its Client, Resource and Response classes (pysnow 0.7,
   https://pysnow.readthedocs.io) as far as the module calls them. The
   instance behind it always answers: transport, authentication and server
   errors are left out. *)

Module pysnow.

Record Client : Type := mkClient {
  instance : string;
  user : string;
  password : string
}.

(** [c.resource(api_path=...)]: a handle on one API path; building it
    opens no connection. *)
Record Resource : Type := mkResource {
  client : Client;
  api_path : string
}.

Definition resource (c : Client) (path : string) : Resource :=
  mkResource c path.

(** The result of a request: the rows of the body (for a GET, the rows
    of the table that satisfy the query, in the instance's order) and
    whether it was asked for with [stream=True]. *)
Record Response : Type := mkResponse {
  resp_resource : Resource;
  rows : list record;
  stream : bool
}.

(** The instance reads a dict query as a conjunction of equalities. *)
Definition matches (query r : record) : bool :=
  bool_decide (map_Forall (λ k v, r !! k = Some v) query).

(** [resource.get(query=..., stream=...)]: one GET request. *)
Definition get (res : Resource) (query : record) (strm : bool) : M Response :=
  emit (HttpGet (api_path res) query) ;;;
  tbl <- read_table (api_path res) ;;
  ret (mkResponse res (filter (λ r, matches query r = true) tbl) strm).

(** [Response.one()]: exactly one row, or NoResults / MultipleResults. *)
Definition one (resp : Response) : M record :=
  match rows resp with
  | [] => raise NoResults
  | [r] => ret r
  | _ :: _ :: _ => raise MultipleResults
  end.

Definition is_NoResults (e : exn) : bool :=
  match e with NoResults => true | _ => false end.

(** [Response.one_or_none()]: [one()] with NoResults turned into None;
    MultipleResults still propagates. *)
Definition one_or_none (resp : Response) : M (option record) :=
  catch (r <- one resp ;; ret (Some r)) is_NoResults (ret None).

(** [Response.all()]: a generator over the rows. *)
Definition all (resp : Response) : Py.generator := rows resp.

(** [Response.first()]: the next item of [all()], NoResults when the
    generator is exhausted at once; only for streamed responses. *)
Definition first (resp : Response) : M record :=
  if stream resp then
    nx <- Py.next (all resp) ;;
    match nx with
    | (Some r, _) => ret r
    | (None, _) => raise NoResults
    end
  else raise InvalidUsage.

(** [Response.first_or_none()]. *)
Definition first_or_none (resp : Response) : M (option record) :=
  catch (r <- first resp ;; ret (Some r)) is_NoResults (ret None).

(** [response[key]] is [response.one().get(key)]. *)
Definition getitem (resp : Response) (key : string) : M (option string) :=
  r <- one resp ;; ret (r !! key).

(** [bool(response)]: the class defines neither [__bool__] nor
    [__len__], so a Response object is always true. *)
Definition truth (resp : Response) : bool := true.

(** The instance's answer to PUT <api_path>/<sys_id>: the fields of the
    payload overwrite those of the row with that sys_id, the other
    fields stay, and the body of the answer is the row after the
    update. *)
Definition has_sys_id (sid : string) (r : record) : bool :=
  bool_decide (r !! "sys_id" = Some sid).

Definition apply_payload (payload r : record) : record := payload ∪ r.

Definition put (res : Resource) (sid : string) (payload : record) : M Response :=
  emit (HttpPut (api_path res) sid payload) ;;;
  tbl <- read_table (api_path res) ;;
  match filter (λ r, has_sys_id sid r = true) tbl with
  | [] => raise NoResults
  | r :: _ =>
      write_table (api_path res)
        ((λ r, if has_sys_id sid r then apply_payload payload r else r) <$> tbl) ;;;
      ret (mkResponse res [apply_payload payload r] false)
  end.

(** [str(v)] of an optional value inside a dict query. *)
Definition str_of (v : option string) : string := default "None" v.

(** [resource.update(query, payload)]: look the record up (exactly one
    must match), then PUT the payload to its sys_id. *)
Definition resource_update (res : Resource) (query payload : record) : M Response :=
  found <- get res query false ;;
  r <- one found ;;
  match r !! "sys_id" with
  | None => raise (KeyError "sys_id")
  | Some sid => put res sid payload
  end.

(** [Response.update(payload)]:
    [self._resource.update({'sys_id': self['sys_id']}, payload)]. *)
Definition update (resp : Response) (payload : record) : M Response :=
  sid <- getitem resp "sys_id" ;;
  resource_update (resp_resource resp) {[ "sys_id" := str_of sid ]} payload.

End pysnow.

(* --------------------------------------------------------------------- *)
(* src/_modules/snow_api.py                                                *)
(* --------------------------------------------------------------------- *)

Definition __virtualname__ : string := "snow".

(** What [__virtual__] returns: the name to load the module under, or
    False. *)
Inductive virtual_return : Type :=
  | VirtualName (name : string)
  | VirtualFalse.

(** [__salt__['config.get'](path)]: walk the configuration along the
    colon-separated path; the empty string when the path leads nowhere. *)
Definition config_get (opts : gmap string pyval) (path : string) : pyval :=
  match Py.split ":" path with
  | [key] => default (PyStr "") (opts !! key)
  | [key; sub] =>
      match opts !! key with
      | Some (PyDict d) => from_option PyStr (PyStr "") (d !! sub)
      | _ => PyStr ""
      end
  | _ => PyStr ""
  end.

Section SnowApi.

(** The minion configuration and whether [import pysnow] succeeded. *)
Variable opts : gmap string pyval.
Variable PYSNOW_EXISTS : bool.

(** The loop of [__virtual__] over the required keys. *)
Fixpoint virtual_loop (keys : list string) (virtual_ret : virtual_return)
  : M virtual_return :=
  match keys with
  | [] => ret virtual_ret
  | k :: keys' =>
      if negb (Py.truthy (config_get opts ("service_now:" +:+ k))) then
        logging (LogError
          ("snow module-required config/pillar value service_now:" +:+ k
             +:+ " not defined")) ;;;
        virtual_loop keys' VirtualFalse
      else virtual_loop keys' virtual_ret
  end.

Definition __virtual__ : M virtual_return :=
  virtual_ret <- virtual_loop ["username"; "password"; "instance"]
                   (VirtualName __virtualname__) ;;
  ret (if negb PYSNOW_EXISTS then VirtualFalse else virtual_ret).

Definition _client_for_table (tablename : string) : M pysnow.Resource :=
  let service_now_config := config_get opts "service_now" in
  logging (LogDebug "service_now_config: %s") ;;;
  inst <- Py.subscript service_now_config "instance" ;;
  usr <- Py.subscript service_now_config "username" ;;
  pwd <- Py.subscript service_now_config "password" ;;
  let c := pysnow.mkClient inst usr pwd in
  ret (pysnow.resource c ("/table/" +:+ tablename)).

Definition _get_response (tablename : string) (kwargs : record)
  : M pysnow.Response :=
  table_client <- _client_for_table tablename ;;
  response <- pysnow.get table_client kwargs true ;;
  ret response.

(** [kwargs] is what [get_record]'s own signature [(tablename, **kwargs)]
    collected, so it holds no key "tablename" and the call
    [_get_response(tablename, **kwargs)] always binds. *)
Definition get_record (tablename : string) (kwargs : record)
  : M (option record) :=
  response <- _get_response tablename kwargs ;;
  pysnow.one_or_none response.

Definition get_records (tablename : string) (max_results : Z)
    (kwargs : record) : M (list record) :=
  table_client <- _client_for_table tablename ;;
  response <- pysnow.get table_client kwargs true ;;
  records <- Py.list_islice (pysnow.all response) max_results ;;
  ret records.

(** Lines 101-102: the filter built from [query_string]. *)
Definition query_of (query_string : string) : M record :=
  let query_parts := Py.split "=" query_string in
  k <- Py.getitem query_parts 0 ;;
  v <- Py.getitem query_parts 1 ;;
  ret {[ k := v ]}.

Definition update_record (tablename query_string : string)
    (payload : record) : M (option record) :=
  query <- query_of query_string ;;
  Py.bind_keywords "tablename" query ;;;
  record <- _get_response tablename query ;;
  if pysnow.truth record then
    updated <- pysnow.update record payload ;;
    r <- pysnow.one updated ;;
    ret (Some r)
  else ret None.

Definition get_incident (incident_number key : string) : M record :=
  incident <- _client_for_table "incident" ;;
  ret_ <- pysnow.get incident {[ key := incident_number ]} true ;;
  pysnow.first ret_.

End SnowApi.

(** The defaults of the keyword parameters. *)
Definition max_results_default : Z := 10.
Definition key_default : string := "number".

(* --------------------------------------------------------------------- *)
(* Vocabulary of the statements                                            *)
(* --------------------------------------------------------------------- *)

(** The rows of a table of the instance, in the instance's order. *)
Definition rows_of (w : world) (tablename : string) : list record :=
  default [] (tables w !! ("/table/" +:+ tablename)).

(** The rows of a table that satisfy a filter, in the instance's order. *)
Definition matching (w : world) (tablename : string) (query : record)
  : list record :=
  filter (λ r, pysnow.matches query r = true) (rows_of w tablename).

(** The value configured for [service_now:<k>], if any. *)
Definition setting (opts : gmap string pyval) (k : string) : option string :=
  match opts !! "service_now" with
  | Some (PyDict d) => d !! k
  | _ => None
  end.

(** The settings [__virtual__] insists on. *)
Definition required : list string := ["username"; "password"; "instance"].

(** [c in s] for a character and a string. *)
Fixpoint contains (c : ascii) (s : string) : bool :=
  match s with
  | EmptyString => false
  | String c' s' => Ascii.eqb c' c || contains c s'
  end.

(** The module is offered to callers only when [__virtual__] answers its
    name. *)
Definition loaded (opts : gmap string pyval) (pysnow_exists : bool)
    (w : world) : Prop :=
  (__virtual__ opts pysnow_exists w).1 = Ok (VirtualName __virtualname__).

(** ServiceNow keeps a [sys_id] on every row, unique within its table. *)
Definition sys_ids_unique (tbl : list record) : Prop :=
  Forall (λ r : record, is_Some (r !! "sys_id")) tbl ∧
  NoDup ((λ r : record, r !! "sys_id") <$> tbl).

(** What a PUT to [sid] does to each row of the table. *)
Definition put_row (sid : string) (payload r : record) : record :=
  if pysnow.has_sys_id sid r then pysnow.apply_payload payload r else r.

(** What the world looks like once a table handle has been built and one
    GET has been sent. *)
Definition after_get (w : world) (tablename : string) (query : record)
  : world :=
  World (tables w)
        (wire w ++ [HttpGet ("/table/" +:+ tablename) query])
        (log w ++ [LogDebug "service_now_config: %s"]).

(** A fixture: an incident table with one INC23301, and the same table
    with a second incident of that number appended. *)
Module Fixture.
Definition inc1 : record :=
  {[ "sys_id" := "s1"; "number" := "INC23301"; "stage" := "new" ]}.
Definition inc2 : record :=
  {[ "sys_id" := "s2"; "number" := "INC23302"; "stage" := "new" ]}.
Definition inc3 : record :=
  {[ "sys_id" := "s3"; "number" := "INC23301"; "stage" := "closed" ]}.
Definition inc1_accepted : record :=
  {[ "sys_id" := "s1"; "number" := "INC23301"; "stage" := "accepted" ]}.
Definition opts : gmap string pyval :=
  {[ "service_now" :=
       PyDict {[ "username" := "admin"; "password" := "a_secure-password";
                 "instance" := "dev78478" ]} ]}.
Definition no_password : gmap string pyval :=
  {[ "service_now" :=
       PyDict {[ "username" := "admin"; "password" := "";
                 "instance" := "dev78478" ]} ]}.
Definition remote : world :=
  World {[ "/table/incident" := [inc1; inc2] ]} [] [].
Definition remote_dup : world :=
  World {[ "/table/incident" := [inc1; inc2; inc3] ]} [] [].
End Fixture.

(** A required setting counts as set when it is present and not the empty
    string. *)
Definition is_set (opts : gmap string pyval) (k : string) : bool :=
  match setting opts k with
  | Some v => negb (String.eqb v "")
  | None => false
  end.

(** The error [__virtual__] logs for a setting that is not set. *)
Definition missing_message (k : string) : string :=
  "snow module-required config/pillar value service_now:" +:+ k
    +:+ " not defined".

(** Where the world stands once [_client_for_table] has run. *)
Definition after_debug (w : world) : world :=
  World (tables w) (wire w) (log w ++ [LogDebug "service_now_config: %s"]).

(** All four operations raise [e] in world [w] and leave behind only the
    debug line of [_client_for_table]; for [update_record] this is for
    a query string "k=..." whose key holds no '=' and is not "tablename". *)
Definition all_raise (opts : gmap string pyval) (w : world) (e : exn) : Prop :=
  (∀ tablename kwargs,
     get_record opts tablename kwargs w = (Raise e, after_debug w))
  ∧ (∀ tablename max_results kwargs,
       get_records opts tablename max_results kwargs w = (Raise e, after_debug w))
  ∧ (∀ incident_number key,
       get_incident opts incident_number key w = (Raise e, after_debug w))
  ∧ (∀ tablename k rest payload,
       contains "=" k = false → k ≠ "tablename" →
       update_record opts tablename (k +:+ "=" +:+ rest) payload w
       = (Raise e, after_debug w)).

(** More fixtures: configurations with a setting left out, and one with
    no [service_now] entry at all. *)
Module Cases.
Definition no_username_dict : record :=
  {[ "password" := "a_secure-password"; "instance" := "dev78478" ]}.
Definition no_username_key : gmap string pyval :=
  {[ "service_now" := PyDict no_username_dict ]}.
Definition only_instance : gmap string pyval :=
  {[ "service_now" := PyDict {[ "instance" := "dev78478" ]} ]}.
Definition nothing : gmap string pyval := ∅.
Definition lone_incident : world :=
  World {[ "/table/incident" := [Fixture.inc1] ]} [] [].
Definition d1 : record :=
  {[ "sys_id" := "s1"; "description" := "x"; "stage" := "new" ]}.
Definition d2 : record :=
  {[ "sys_id" := "s2"; "description" := "x=y"; "stage" := "new" ]}.
Definition descriptions : world :=
  World {[ "/table/incident" := [d1; d2] ]} [] [].
Definition t1 : record :=
  {[ "sys_id" := "s1"; "tablename" := "cmdb_ci" ]}.
Definition with_tablename_field : world :=
  World {[ "/table/incident" := [t1] ]} [] [].
Definition twin1 : record := {[ "sys_id" := "s1"; "number" := "INC23301" ]}.
Definition twin2 : record := {[ "sys_id" := "s1"; "number" := "INC23302" ]}.
Definition shared_sys_id : world :=
  World {[ "/table/incident" := [twin1; twin2] ]} [] [].
Definition two_tables : world :=
  World {[ "/table/incident" := [Fixture.inc1; Fixture.inc2];
           "/table/problem" := [Fixture.inc3] ]} [] [].
End Cases.

(* ===================================================================== *)
(* Theorems                                                                *)
(* ===================================================================== *)

Ltac run := unfold bind, ret, raise, emit, logging, read_table, write_table; simpl.

Section Split.

Lemma split_nonempty sep s : Py.split sep s ≠ [].
Proof. destruct s as [|c s]; simpl; [done|]. destruct (Ascii.eqb c sep); [done|]. by destruct (Py.split sep s). Qed.

(** A string without the separator is its own single part. *)
Lemma split_no_sep sep s : contains sep s = false → Py.split sep s = [s].
Proof.
  induction s as [|c s IH]; simpl; [done|].
  intros [Hc Hs]%orb_false_iff. rewrite Hc, (IH Hs). done.
Qed.

(** The first separator ends the first part. *)
Lemma split_first sep k rest :
  contains sep k = false →
  Py.split sep (k +:+ String sep rest) = k :: Py.split sep rest.
Proof.
  induction k as [|c k IH]; simpl.
  - intros _. by rewrite Ascii.eqb_refl.
  - intros [Hc Hk]%orb_false_iff. by rewrite Hc, (IH Hk).
Qed.

End Split.

Section World.

Lemma world_eta w : World (tables w) (wire w) (log w) = w.
Proof. by destruct w. Qed.

Lemma islice_items_take stop (it : Py.generator) w :
  Py.islice_items stop it w =
  (Ok (take stop it),
   World (tables w) (wire w ++ (StreamRead <$> take stop it)) (log w)).
Proof.
  revert it w. induction stop as [|stop IH]; intros it w.
  - simpl. unfold ret. by rewrite app_nil_r, world_eta.
  - destruct it as [|r it].
    + simpl. run. by rewrite app_nil_r, world_eta.
    + simpl. run. rewrite IH. simpl. by rewrite <- app_assoc.
Qed.

Lemma list_islice_in_range (it : Py.generator) (stop : Z) w :
  (0 ≤ stop)%Z → (stop ≤ Py.maxsize)%Z →
  Py.list_islice it stop w
  = (Ok (take (Z.to_nat stop) it),
     World (tables w) (wire w ++ (StreamRead <$> take (Z.to_nat stop) it)) (log w)).
Proof.
  intros Hlo Hhi. unfold Py.list_islice.
  destruct (Z.ltb_spec stop 0); [lia|].
  destruct (Z.ltb_spec Py.maxsize stop); [lia|].
  apply islice_items_take.
Qed.

Lemma list_islice_out_of_range (it : Py.generator) (stop : Z) w :
  (stop < 0 ∨ Py.maxsize < stop)%Z →
  Py.list_islice it stop w = (Raise ValueError, w).
Proof.
  intros Hout. unfold Py.list_islice.
  destruct (Z.ltb_spec stop 0); [done|].
  destruct (Z.ltb_spec Py.maxsize stop); [done|lia].
Qed.

End World.

Section Config.

Variable opts : gmap string pyval.

Lemma config_get_setting k :
  contains ":" k = false →
  config_get opts ("service_now:" +:+ k)
  = from_option PyStr (PyStr "") (setting opts k).
Proof.
  intros Hk. unfold config_get, setting.
  change ("service_now:" +:+ k) with ("service_now" +:+ String ":" k).
  rewrite split_first by reflexivity. rewrite (split_no_sep _ _ Hk).
  destruct (opts !! "service_now") as [[s|d]|]; done.
Qed.

Lemma config_get_section :
  config_get opts "service_now" = default (PyStr "") (opts !! "service_now").
Proof. reflexivity. Qed.

Lemma truthy_setting (o : option string) :
  Py.truthy (from_option PyStr (PyStr "") o) = true
  ↔ ∃ v, o = Some v ∧ v ≠ "".
Proof.
  destruct o as [v|]; simpl.
  - rewrite negb_true_iff, String.eqb_neq. split.
    + intros Hv. by exists v.
    + by intros (v' & [= ->] & Hv).
  - split; [done|]. by intros (v & Hv & _).
Qed.

Lemma required_no_colon k : k ∈ required → contains ":" k = false.
Proof.
  unfold required. rewrite !elem_of_cons, elem_of_nil.
  intros [Hk|[Hk|[Hk|[]]]]; subst k; reflexivity.
Qed.

(** The loop answers [virtual_ret] when every key is set to a true
    value and False otherwise; it only writes to the log. *)
Lemma virtual_loop_spec keys virtual_ret w :
  (virtual_loop opts keys virtual_ret w).1
  = Ok (if forallb (λ k, Py.truthy (config_get opts ("service_now:" +:+ k))) keys
        then virtual_ret else VirtualFalse)
  ∧ wire (virtual_loop opts keys virtual_ret w).2 = wire w
  ∧ tables (virtual_loop opts keys virtual_ret w).2 = tables w.
Proof.
  revert virtual_ret w. induction keys as [|k keys IH]; intros vr w; [done|].
  cbn [virtual_loop forallb].
  destruct (Py.truthy (config_get opts ("service_now:" +:+ k))); cbn [negb andb].
  - apply IH.
  - run. destruct (IH VirtualFalse
      (World (tables w) (wire w)
         (log w ++ [LogError ("snow module-required config/pillar value service_now:"
                               +:+ k +:+ " not defined")]))) as (-> & -> & ->).
    by destruct (forallb _ keys).
Qed.

Lemma virtual_spec pysnow_exists w :
  (__virtual__ opts pysnow_exists w).1
  = Ok (if pysnow_exists
           && forallb (λ k, Py.truthy (config_get opts ("service_now:" +:+ k))) required
        then VirtualName __virtualname__ else VirtualFalse)
  ∧ wire (__virtual__ opts pysnow_exists w).2 = wire w
  ∧ tables (__virtual__ opts pysnow_exists w).2 = tables w.
Proof.
  unfold __virtual__, bind.
  pose proof (virtual_loop_spec required (VirtualName __virtualname__) w) as (H1 & H2 & H3).
  fold required.
  destruct (virtual_loop opts required (VirtualName __virtualname__) w) as [[v|e] w'];
    cbn [fst snd] in *; [|done].
  injection H1 as ->. split_and!; [|done..]. unfold ret. cbn [fst].
  destruct pysnow_exists; cbn [negb andb]; [|done].
  reflexivity.
Qed.

(** A loaded module has all three settings, each a non-empty string. *)
Lemma loaded_settings pysnow_exists w k :
  loaded opts pysnow_exists w → k ∈ required →
  ∃ v, setting opts k = Some v ∧ v ≠ "".
Proof.
  unfold loaded. intros Hl Hk.
  destruct (virtual_spec pysnow_exists w) as (Hv & _ & _). rewrite Hv in Hl.
  destruct pysnow_exists; cbn [andb] in Hl; [|done].
  destruct (forallb _ required) eqn:Hall; [|done].
  rewrite forallb_forall in Hall.
  specialize (Hall k). rewrite <- list_elem_of_In in Hall.
  specialize (Hall Hk).
  rewrite config_get_setting in Hall by by apply required_no_colon.
  by apply truthy_setting.
Qed.

(** On a loaded module the table handle is built without touching the
    network. *)
Lemma client_for_table_loaded pysnow_exists w tablename :
  loaded opts pysnow_exists w →
  ∃ c, _client_for_table opts tablename w
       = (Ok (pysnow.mkResource c ("/table/" +:+ tablename)),
          World (tables w) (wire w) (log w ++ [LogDebug "service_now_config: %s"])).
Proof.
  intros Hl.
  destruct (loaded_settings _ _ "instance" Hl) as (i & Hi & _); [set_solver|].
  destruct (loaded_settings _ _ "username" Hl) as (u & Hu & _); [set_solver|].
  destruct (loaded_settings _ _ "password" Hl) as (p & Hp & _); [set_solver|].
  unfold _client_for_table. rewrite config_get_section.
  unfold setting in *.
  destruct (opts !! "service_now") as [[s|d]|]; try done.
  run. rewrite Hi. run. rewrite Hu. run. rewrite Hp. run.
  by eexists.
Qed.

(** ... and the GET that follows answers the matching rows. *)
Lemma get_response_loaded pysnow_exists w tablename kwargs :
  loaded opts pysnow_exists w →
  ∃ res, pysnow.api_path res = "/table/" +:+ tablename ∧
    _get_response opts tablename kwargs w
    = (Ok (pysnow.mkResponse res (matching w tablename kwargs) true),
       after_get w tablename kwargs).
Proof.
  intros Hl. destruct (client_for_table_loaded _ _ tablename Hl) as [c Hc].
  exists (pysnow.mkResource c ("/table/" +:+ tablename)). split; [reflexivity|].
  unfold _get_response, bind. rewrite Hc. reflexivity.
Qed.

End Config.

(* --------------------------------------------------------------------- *)
(* __virtual__                                                             *)
(* --------------------------------------------------------------------- *)

(** C8. If one of the three required settings (service_now:username,
    service_now:password, service_now:instance) is absent or the empty
    string, [__virtual__] answers False, so the module is not loaded, and
    it has sent nothing over the network and left the remote tables alone. *)
Theorem virtual_false_when_setting_missing
    (opts : gmap string pyval) (pysnow_exists : bool) (w : world) (k : string) :
  k ∈ required →
  (setting opts k = None ∨ setting opts k = Some "") →
  (__virtual__ opts pysnow_exists w).1 = Ok VirtualFalse
  ∧ wire (__virtual__ opts pysnow_exists w).2 = wire w
  ∧ tables (__virtual__ opts pysnow_exists w).2 = tables w.
Proof.
  intros Hk Hmiss.
  destruct (virtual_spec opts pysnow_exists w) as (Hv & Hw & Ht).
  split_and!; [|done..]. rewrite Hv.
  destruct pysnow_exists; cbn [andb]; [|done].
  destruct (forallb _ required) eqn:Hall; [|done]. exfalso.
  rewrite forallb_forall in Hall. specialize (Hall k).
  rewrite <- list_elem_of_In in Hall. specialize (Hall Hk).
  rewrite config_get_setting in Hall by by apply required_no_colon.
  apply truthy_setting in Hall as (v & Hv' & Hne).
  destruct Hmiss as [Hm|Hm]; rewrite Hm in Hv'; [done|]. by injection Hv' as <-.
Qed.

Lemma virtual_false_when_setting_missing_witness :
  "password" ∈ required
  ∧ (setting Fixture.no_password "password" = None
     ∨ setting Fixture.no_password "password" = Some "")
  ∧ (__virtual__ Fixture.no_password true Fixture.remote).1 = Ok VirtualFalse
  ∧ wire (__virtual__ Fixture.no_password true Fixture.remote).2 = wire Fixture.remote
  ∧ tables (__virtual__ Fixture.no_password true Fixture.remote).2 = tables Fixture.remote.
Proof.
  assert (H1 : "password" ∈ required) by (unfold required; repeat constructor).
  assert (H2 : setting Fixture.no_password "password" = None
               ∨ setting Fixture.no_password "password" = Some "")
    by (right; vm_compute; reflexivity).
  split; [exact H1|]. split; [exact H2|].
  exact (virtual_false_when_setting_missing
           Fixture.no_password true Fixture.remote "password" H1 H2).
Defined.

(* --------------------------------------------------------------------- *)
(* The query string of update_record                                       *)
(* --------------------------------------------------------------------- *)

(** C9. When [query_string] holds no '=' at all, [update_record] raises
    the IndexError of [query_parts[1]] (Python's own out-of-range error,
    nothing the module names) and the world is as before: no table
    handle was built and nothing was sent. *)
Theorem update_record_without_equals_raises
    (opts : gmap string pyval) (tablename query_string : string)
    (payload : record) (w : world) :
  contains "=" query_string = false →
  update_record opts tablename query_string payload w = (Raise IndexError, w).
Proof.
  intros Hno. unfold update_record, query_of, bind.
  rewrite (split_no_sep _ _ Hno). reflexivity.
Qed.

Lemma update_record_without_equals_raises_witness :
  contains "=" "number" = false
  ∧ update_record Fixture.opts "incident" "number" {[ "stage" := "accepted" ]}
      Fixture.remote
    = (Raise IndexError, Fixture.remote).
Proof.
  assert (H : contains "=" "number" = false) by reflexivity.
  split; [exact H|].
  exact (update_record_without_equals_raises Fixture.opts "incident" "number"
           {[ "stage" := "accepted" ]} Fixture.remote H).
Defined.

(** [query_of] on a string whose first '=' comes after [k]: the key is
    [k] and the value is the second part of the split of the whole. *)
Lemma query_of_parts k rest w :
  contains "=" k = false →
  query_of (k +:+ String "=" rest) w
  = (Ok {[ k := default "" (head (Py.split "=" rest)) ]}, w).
Proof.
  intros Hk. unfold query_of, bind. rewrite (split_first _ _ _ Hk).
  pose proof (split_nonempty "=" rest).
  destruct (Py.split "=" rest) as [|v parts]; [done|]. reflexivity.
Qed.

(* --------------------------------------------------------------------- *)
(* get_record, get_records, get_incident                                   *)
(* --------------------------------------------------------------------- *)

Section Fetch.

Variable opts : gmap string pyval.
Variable pysnow_exists : bool.

Lemma get_record_run w tablename kwargs :
  loaded opts pysnow_exists w →
  get_record opts tablename kwargs w
  = (match matching w tablename kwargs with
     | [] => Ok None
     | [r] => Ok (Some r)
     | _ :: _ :: _ => Raise MultipleResults
     end, after_get w tablename kwargs).
Proof.
  intros Hl. destruct (get_response_loaded opts _ _ tablename kwargs Hl) as (res & _ & Hg).
  unfold get_record, bind. rewrite Hg.
  unfold pysnow.one_or_none, catch, pysnow.one, bind. cbn [pysnow.rows].
  by destruct (matching w tablename kwargs) as [|r [|r' found]].
Qed.

Lemma get_records_run w tablename max_results kwargs :
  loaded opts pysnow_exists w →
  get_records opts tablename max_results kwargs w
  = Py.list_islice (matching w tablename kwargs) max_results
      (after_get w tablename kwargs).
Proof.
  intros Hl. destruct (client_for_table_loaded opts _ _ tablename Hl) as [c Hc].
  unfold get_records, bind at 1. rewrite Hc.
  unfold pysnow.get. run. unfold pysnow.all. cbn [pysnow.rows].
  fold (rows_of w tablename). fold (matching w tablename kwargs).
  fold (after_get w tablename kwargs).
  by destruct (Py.list_islice _ _ _) as [[rs|e] w'].
Qed.

Lemma get_incident_run w incident_number key :
  loaded opts pysnow_exists w →
  get_incident opts incident_number key w
  = match matching w "incident" {[ key := incident_number ]} with
    | [] => (Raise NoResults, after_get w "incident" {[ key := incident_number ]})
    | r :: _ =>
        (Ok r,
         World (tables w)
           (wire w ++ [HttpGet "/table/incident" {[ key := incident_number ]};
                       StreamRead r])
           (log w ++ [LogDebug "service_now_config: %s"]))
    end.
Proof.
  intros Hl. destruct (client_for_table_loaded opts _ _ "incident" Hl) as [c Hc].
  unfold get_incident, bind at 1. rewrite Hc.
  unfold pysnow.get. run. unfold pysnow.first, pysnow.all. cbn [pysnow.stream pysnow.rows].
  fold (rows_of w "incident"). fold (matching w "incident" {[ key := incident_number ]}).
  destruct (matching w "incident" {[ key := incident_number ]}) as [|r found];
    run; [done|]. by rewrite <- app_assoc.
Qed.

End Fetch.

(** C1. On a loaded module, [get_record] answers the matching record when
    exactly one row of the table satisfies the filter, None when no row
    does, and raises pysnow's MultipleResults (the ambiguity error, not
    the None of "not found") when two or more do. *)
Theorem get_record_one_none_or_ambiguous
    (opts : gmap string pyval) (pysnow_exists : bool) (w : world)
    (tablename : string) (kwargs : record) :
  loaded opts pysnow_exists w →
  (∀ r, matching w tablename kwargs = [r] →
        (get_record opts tablename kwargs w).1 = Ok (Some r))
  ∧ (matching w tablename kwargs = [] →
        (get_record opts tablename kwargs w).1 = Ok None)
  ∧ ((2 ≤ List.length (matching w tablename kwargs))%nat →
        (get_record opts tablename kwargs w).1 = Raise MultipleResults).
Proof.
  intros Hl. rewrite (get_record_run _ _ _ _ _ Hl). cbn [fst].
  split_and!.
  - by intros r ->.
  - by intros ->.
  - destruct (matching w tablename kwargs) as [|r [|r' found]]; simpl; [lia..|done].
Qed.

Lemma get_record_one_none_or_ambiguous_witness :
  loaded Fixture.opts true Fixture.remote
  ∧ loaded Fixture.opts true Fixture.remote_dup
  ∧ (get_record Fixture.opts "incident" {[ "number" := "INC23302" ]} Fixture.remote).1
    = Ok (Some Fixture.inc2)
  ∧ (get_record Fixture.opts "incident" {[ "number" := "INC00000" ]} Fixture.remote).1
    = Ok None
  ∧ (get_record Fixture.opts "incident" {[ "number" := "INC23301" ]} Fixture.remote_dup).1
    = Raise MultipleResults.
Proof.
  assert (Hl : loaded Fixture.opts true Fixture.remote) by (vm_compute; reflexivity).
  assert (Hd : loaded Fixture.opts true Fixture.remote_dup) by (vm_compute; reflexivity).
  split; [exact Hl|]. split; [exact Hd|]. split_and!.
  - apply (get_record_one_none_or_ambiguous Fixture.opts true Fixture.remote
             "incident" {[ "number" := "INC23302" ]} Hl).
    vm_compute; reflexivity.
  - apply (get_record_one_none_or_ambiguous Fixture.opts true Fixture.remote
             "incident" {[ "number" := "INC00000" ]} Hl).
    vm_compute; reflexivity.
  - apply (get_record_one_none_or_ambiguous Fixture.opts true Fixture.remote_dup
             "incident" {[ "number" := "INC23301" ]} Hd).
    vm_compute. lia.
Defined.

(** C3, as the spec words it, fails above sys.maxsize: with
    [max_results = 2^63], which is >= 0, [get_records] raises the
    ValueError of islice instead of answering the matching rows. *)
Lemma get_records_above_maxsize_raises :
  loaded Fixture.opts true Fixture.remote
  ∧ (0 ≤ 2 ^ 63)%Z
  ∧ (get_records Fixture.opts "incident" (2 ^ 63) ∅ Fixture.remote).1
    = Raise ValueError
  ∧ (get_records Fixture.opts "incident" (2 ^ 63) ∅ Fixture.remote).1
    ≠ Ok (take (Z.to_nat (2 ^ 63)) (matching Fixture.remote "incident" ∅)).
Proof.
  assert (Hl : loaded Fixture.opts true Fixture.remote) by (vm_compute; reflexivity).
  assert (Hr : (get_records Fixture.opts "incident" (2 ^ 63) ∅ Fixture.remote).1
               = Raise ValueError).
  { rewrite (get_records_run _ _ _ _ _ _ Hl).
    rewrite list_islice_out_of_range; [done|]. right. by vm_compute. }
  split; [exact Hl|]. split; [lia|]. split; [exact Hr|].
  rewrite Hr. discriminate.
Qed.

(** C3, amended. On a loaded module and for [max_results = n] with
    0 <= n <= sys.maxsize, [get_records] answers the first [n] matching
    rows in the instance's order, that is min(n, m) records when m rows
    match, and pulls exactly those rows from the stream: after the GET the
    wire shows one read per returned record and none beyond. *)
Theorem get_records_first_n
    (opts : gmap string pyval) (pysnow_exists : bool) (w : world)
    (tablename : string) (n : Z) (kwargs : record) :
  loaded opts pysnow_exists w →
  (0 ≤ n)%Z →
  (n ≤ Py.maxsize)%Z →
  (get_records opts tablename n kwargs w).1
  = Ok (take (Z.to_nat n) (matching w tablename kwargs))
  ∧ Z.of_nat (List.length (take (Z.to_nat n) (matching w tablename kwargs)))
    = Z.min n (Z.of_nat (List.length (matching w tablename kwargs)))
  ∧ wire (get_records opts tablename n kwargs w).2
    = wire w ++ HttpGet ("/table/" +:+ tablename) kwargs
        :: (StreamRead <$> take (Z.to_nat n) (matching w tablename kwargs)).
Proof.
  intros Hl Hn Hmax. rewrite (get_records_run _ _ _ _ _ _ Hl).
  rewrite (list_islice_in_range _ _ _ Hn Hmax). cbn [fst snd wire after_get].
  split_and!; [done| |by rewrite <- app_assoc].
  rewrite length_take. lia.
Qed.

Lemma get_records_first_n_witness :
  loaded Fixture.opts true Fixture.remote
  ∧ (0 ≤ 2)%Z
  ∧ (2 ≤ Py.maxsize)%Z
  ∧ (get_records Fixture.opts "incident" 2 ∅ Fixture.remote).1
    = Ok [Fixture.inc1; Fixture.inc2]
  ∧ wire (get_records Fixture.opts "incident" 2 ∅ Fixture.remote).2
    = [HttpGet "/table/incident" ∅; StreamRead Fixture.inc1; StreamRead Fixture.inc2].
Proof.
  assert (Hl : loaded Fixture.opts true Fixture.remote) by (vm_compute; reflexivity).
  assert (Hn : (0 ≤ 2)%Z) by lia.
  assert (Hmax : (2 ≤ Py.maxsize)%Z) by (by vm_compute).
  split; [exact Hl|]. split; [exact Hn|]. split; [exact Hmax|].
  destruct (get_records_first_n Fixture.opts true Fixture.remote "incident" 2 ∅
              Hl Hn Hmax) as (H1 & _ & H3).
  split; [exact H1|exact H3].
Defined.

(** C10. On a loaded module a negative [max_results] makes [get_records]
    raise ValueError: the GET has been sent, but nothing is read from the
    stream and no list is returned. *)
Theorem get_records_negative_raises
    (opts : gmap string pyval) (pysnow_exists : bool) (w : world)
    (tablename : string) (n : Z) (kwargs : record) :
  loaded opts pysnow_exists w →
  (n < 0)%Z →
  get_records opts tablename n kwargs w
  = (Raise ValueError, after_get w tablename kwargs).
Proof.
  intros Hl Hn. rewrite (get_records_run _ _ _ _ _ _ Hl).
  apply list_islice_out_of_range. by left.
Qed.

Lemma get_records_negative_raises_witness :
  loaded Fixture.opts true Fixture.remote
  ∧ (-1 < 0)%Z
  ∧ get_records Fixture.opts "incident" (-1) ∅ Fixture.remote
    = (Raise ValueError, after_get Fixture.remote "incident" ∅).
Proof.
  assert (Hl : loaded Fixture.opts true Fixture.remote) by (vm_compute; reflexivity).
  assert (Hn : (-1 < 0)%Z) by lia.
  split; [exact Hl|]. split; [exact Hn|].
  exact (get_records_negative_raises Fixture.opts true Fixture.remote
           "incident" (-1) ∅ Hl Hn).
Defined.

(** C5 fails on the code: when no incident matches {key: incident_number},
    [get_incident] raises pysnow's NoResults instead of answering None,
    because it calls [first()] and not [first_or_none()]. *)
Theorem get_incident_no_match_raises
    (opts : gmap string pyval) (pysnow_exists : bool) (w : world)
    (incident_number key : string) :
  loaded opts pysnow_exists w →
  matching w "incident" {[ key := incident_number ]} = [] →
  (get_incident opts incident_number key w).1 = Raise NoResults.
Proof.
  intros Hl Hnone. rewrite (get_incident_run _ _ _ _ _ Hl), Hnone. done.
Qed.

Lemma get_incident_no_match_raises_witness :
  loaded Fixture.opts true Fixture.remote
  ∧ matching Fixture.remote "incident" {[ "number" := "INC00000" ]} = []
  ∧ (get_incident Fixture.opts "INC00000" "number" Fixture.remote).1 = Raise NoResults.
Proof.
  assert (Hl : loaded Fixture.opts true Fixture.remote) by (vm_compute; reflexivity).
  assert (Hm : matching Fixture.remote "incident" {[ "number" := "INC00000" ]} = [])
    by (vm_compute; reflexivity).
  split; [exact Hl|]. split; [exact Hm|].
  exact (get_incident_no_match_raises Fixture.opts true Fixture.remote
           "INC00000" "number" Hl Hm).
Defined.

(** C6. On a loaded module, when two or more incidents match
    {key: incident_number}, [get_incident] answers the first of them in
    the instance's order and raises nothing; only that one row is read
    from the stream. *)
Theorem get_incident_first_of_many
    (opts : gmap string pyval) (pysnow_exists : bool) (w : world)
    (incident_number key : string) (r1 r2 : record) (others : list record) :
  loaded opts pysnow_exists w →
  matching w "incident" {[ key := incident_number ]} = r1 :: r2 :: others →
  (get_incident opts incident_number key w).1 = Ok r1
  ∧ wire (get_incident opts incident_number key w).2
    = wire w ++ [HttpGet "/table/incident" {[ key := incident_number ]};
                 StreamRead r1].
Proof.
  intros Hl Hmany. rewrite (get_incident_run _ _ _ _ _ Hl), Hmany. done.
Qed.

Lemma get_incident_first_of_many_witness :
  loaded Fixture.opts true Fixture.remote_dup
  ∧ matching Fixture.remote_dup "incident" {[ "number" := "INC23301" ]}
    = [Fixture.inc1; Fixture.inc3]
  ∧ (get_incident Fixture.opts "INC23301" "number" Fixture.remote_dup).1 = Ok Fixture.inc1.
Proof.
  assert (Hl : loaded Fixture.opts true Fixture.remote_dup) by (vm_compute; reflexivity).
  assert (Hm : matching Fixture.remote_dup "incident" {[ "number" := "INC23301" ]}
               = [Fixture.inc1; Fixture.inc3]) by (vm_compute; reflexivity).
  split; [exact Hl|]. split; [exact Hm|].
  exact (proj1 (get_incident_first_of_many Fixture.opts true Fixture.remote_dup
                  "INC23301" "number" Fixture.inc1 Fixture.inc3 [] Hl Hm)).
Defined.

(* --------------------------------------------------------------------- *)
(* update_record                                                           *)
(* --------------------------------------------------------------------- *)

Section Update.

(** A one-pair filter is an equality test on that field. *)
Lemma matches_singleton k v (r : record) :
  pysnow.matches {[ k := v ]} r = bool_decide (r !! k = Some v).
Proof.
  unfold pysnow.matches. apply bool_decide_ext.
  by rewrite map_Forall_singleton.
Qed.

Lemma matches_sys_id sid (r : record) :
  pysnow.matches {[ "sys_id" := sid ]} r = pysnow.has_sys_id sid r.
Proof. apply matches_singleton. Qed.

Lemma no_sys_id_untouched sid payload (tbl : list record) :
  Some sid ∉ ((λ r : record, r !! "sys_id") <$> tbl) →
  filter (λ r, pysnow.has_sys_id sid r = true) tbl = []
  ∧ put_row sid payload <$> tbl = tbl.
Proof.
  induction tbl as [|x tbl IH]; [done|].
  rewrite fmap_cons, not_elem_of_cons. intros [Hx Htbl].
  destruct (IH Htbl) as [IH1 IH2].
  assert (Hno : pysnow.has_sys_id sid x = false).
  { unfold pysnow.has_sys_id. apply bool_decide_eq_false. congruence. }
  rewrite filter_cons, fmap_cons, IH1, IH2. unfold put_row at 1.
  destruct (pysnow.has_sys_id sid x); [done|]. by rewrite decide_False by done.
Qed.

(** In a table with unique sys_ids, the row carrying [sid] is the only
    one a query or a PUT by [sid] reaches. *)
Lemma unique_sys_id_row sid payload (tbl : list record) (r : record) :
  NoDup ((λ r : record, r !! "sys_id") <$> tbl) →
  r ∈ tbl → r !! "sys_id" = Some sid →
  filter (λ r, pysnow.has_sys_id sid r = true) tbl = [r]
  ∧ ∃ pre post, tbl = pre ++ r :: post
      ∧ put_row sid payload <$> tbl = pre ++ pysnow.apply_payload payload r :: post.
Proof.
  intros Hnd Hin Hsid. induction tbl as [|x tbl IH]; [by apply elem_of_nil in Hin|].
  rewrite fmap_cons in Hnd. apply NoDup_cons in Hnd as [Hx Hnd].
  destruct (decide (x = r)) as [->|Hne].
  - rewrite Hsid in Hx.
    destruct (no_sys_id_untouched sid payload tbl Hx) as [H1 H2].
    assert (Hyes : pysnow.has_sys_id sid r = true)
      by by apply bool_decide_eq_true.
    rewrite filter_cons, fmap_cons, H1, H2. unfold put_row at 1.
    destruct (pysnow.has_sys_id sid r); [|done].
    rewrite decide_True by done. split; [done|]. by exists [], tbl.
  - apply elem_of_cons in Hin as [->|Hin]; [done|].
    destruct (IH Hnd Hin) as (IH1 & pre & post & -> & IH2).
    assert (Hno : pysnow.has_sys_id sid x = false).
    { unfold pysnow.has_sys_id. apply bool_decide_eq_false. intros Hxs.
      apply Hx. rewrite Hxs, <- Hsid. apply list_elem_of_fmap. exists r.
      split; [done|]. set_solver. }
    rewrite filter_cons, fmap_cons, IH1, IH2. unfold put_row at 1.
    destruct (pysnow.has_sys_id sid x); [done|].
    rewrite decide_False by done. split; [done|].
    by exists (x :: pre), post.
Qed.

Variable opts : gmap string pyval.
Variable pysnow_exists : bool.

(** No match: [record] is a Response, hence true, and [record.update]
    fails in [self['sys_id']], before any further request. *)
Lemma update_record_run_none w tablename query_string query payload :
  loaded opts pysnow_exists w →
  query_of query_string w = (Ok query, w) →
  query !! "tablename" = None →
  matching w tablename query = [] →
  update_record opts tablename query_string payload w
  = (Raise NoResults, after_get w tablename query).
Proof.
  intros Hl Hq Hkw Hm.
  destruct (get_response_loaded opts _ _ tablename query Hl) as (res & Hres & Hg).
  unfold update_record, bind at 1. rewrite Hq.
  unfold bind at 1, Py.bind_keywords. rewrite Hkw. unfold ret at 1.
  unfold bind at 1. rewrite Hg, Hm. reflexivity.
Qed.

Lemma update_record_run_many w tablename query_string query payload r1 r2 others :
  loaded opts pysnow_exists w →
  query_of query_string w = (Ok query, w) →
  query !! "tablename" = None →
  matching w tablename query = r1 :: r2 :: others →
  update_record opts tablename query_string payload w
  = (Raise MultipleResults, after_get w tablename query).
Proof.
  intros Hl Hq Hkw Hm.
  destruct (get_response_loaded opts _ _ tablename query Hl) as (res & Hres & Hg).
  unfold update_record, bind at 1. rewrite Hq.
  unfold bind at 1, Py.bind_keywords. rewrite Hkw. unfold ret at 1.
  unfold bind at 1. rewrite Hg, Hm. reflexivity.
Qed.

(** One match in a table with unique sys_ids: the row is looked up again
    by its sys_id, the payload is PUT to it, and the row as updated
    comes back. *)
Lemma update_record_run_one w tablename query_string query payload r sid :
  loaded opts pysnow_exists w →
  query_of query_string w = (Ok query, w) →
  query !! "tablename" = None →
  matching w tablename query = [r] →
  r !! "sys_id" = Some sid →
  filter (λ r, pysnow.has_sys_id sid r = true) (rows_of w tablename) = [r] →
  update_record opts tablename query_string payload w
  = (Ok (Some (pysnow.apply_payload payload r)),
     World (<["/table/" +:+ tablename := put_row sid payload <$> rows_of w tablename]>
              (tables w))
           (wire w ++ [HttpGet ("/table/" +:+ tablename) query;
                       HttpGet ("/table/" +:+ tablename) {[ "sys_id" := sid ]};
                       HttpPut ("/table/" +:+ tablename) sid payload])
           (log w ++ [LogDebug "service_now_config: %s"])).
Proof.
  intros Hl Hq Hkw Hm Hsid Huniq.
  destruct (get_response_loaded opts _ _ tablename query Hl) as ([c path] & Hres & Hg).
  cbn [pysnow.api_path] in Hres. subst path.
  unfold update_record, bind at 1. rewrite Hq.
  unfold bind at 1, Py.bind_keywords. rewrite Hkw. unfold ret at 1.
  unfold bind at 1. rewrite Hg, Hm. cbn [pysnow.truth].
  unfold pysnow.update, pysnow.getitem, pysnow.one, pysnow.resource_update, pysnow.get.
  run. rewrite Hsid. cbn [pysnow.str_of default].
  fold (rows_of w tablename).
  assert (Hf : filter (λ x : record, pysnow.matches {[ "sys_id" := sid ]} x = true)
                 (rows_of w tablename) = [r]).
  { rewrite <- Huniq. apply list_filter_iff. intros x. by rewrite matches_sys_id. }
  unfold id. rewrite Hf. unfold pysnow.one at 1. cbn [pysnow.rows].
  unfold ret at 1. rewrite Hsid. unfold pysnow.put. run. fold (rows_of w tablename).
  rewrite Huniq. run. rewrite <- !app_assoc. reflexivity.
Qed.

End Update.

Section QueryString.

Lemma query_of_pair k v w :
  contains "=" k = false → contains "=" v = false →
  query_of (k +:+ "=" +:+ v) w = (Ok {[ k := v ]}, w).
Proof.
  intros Hk Hv. change (k +:+ "=" +:+ v) with (k +:+ String "=" v).
  rewrite (query_of_parts _ _ _ Hk), (split_no_sep _ _ Hv). reflexivity.
Qed.

(** The filter {k: v} binds as keywords when [k] is not the name of the
    parameter. *)
Lemma singleton_not_tablename k v :
  k ≠ "tablename" → ({[ k := v ]} : record) !! "tablename" = None.
Proof. intros Hk. by apply lookup_singleton_ne. Qed.

(** With the key "tablename" the call of [_get_response] is refused:
    TypeError, and the world is as before. *)
Lemma update_record_tablename_key opts tablename query_string v payload w :
  query_of query_string w = (Ok {[ "tablename" := v ]}, w) →
  update_record opts tablename query_string payload w = (Raise TypeError, w).
Proof.
  intros Hq. unfold update_record, bind at 1. rewrite Hq.
  unfold bind at 1, Py.bind_keywords. by rewrite lookup_singleton_eq.
Qed.

End QueryString.

(** C4 fails on the code: "description=x=y" has the key "description" and,
    after its first '=', the value "x=y", but [split('=')] cuts at every
    '=' and the filter built is {description: "x"}. On a table with one
    record described "x" and another described "x=y", [update_record]
    therefore updates the first, not the one the query string names. *)
Theorem update_record_cuts_value_at_second_equals :
  (query_of "description=x=y" Cases.descriptions).1
  = Ok {[ "description" := "x" ]}
  ∧ matching Cases.descriptions "incident" {[ "description" := "x=y" ]} = [Cases.d2]
  ∧ (update_record Fixture.opts "incident" "description=x=y"
       {[ "stage" := "accepted" ]} Cases.descriptions).1
    = Ok (Some ({[ "stage" := "accepted" ]} ∪ Cases.d1))
  ∧ rows_of (update_record Fixture.opts "incident" "description=x=y"
               {[ "stage" := "accepted" ]} Cases.descriptions).2 "incident"
    = [{[ "stage" := "accepted" ]} ∪ Cases.d1; Cases.d2].
Proof. split_and!; vm_compute; reflexivity. Qed.

(** C2 fails on the code: with a well-formed "k=v" whose filter matches no
    row, [update_record] raises pysnow's NoResults instead of answering
    None. The guard [if record:] tests a Response object, which is always
    true, so [record.update] runs and fails on [self['sys_id']]. No update
    is sent: the wire shows the one GET and the tables are as before.
    (With the key "tablename" the call of [_get_response] is refused
    first: TypeError, nothing sent; not None either.) *)
Theorem update_record_no_match_raises
    (opts : gmap string pyval) (pysnow_exists : bool) (w : world)
    (tablename k v : string) (payload : record) :
  loaded opts pysnow_exists w →
  contains "=" k = false →
  contains "=" v = false →
  matching w tablename {[ k := v ]} = [] →
  update_record opts tablename (k +:+ "=" +:+ v) payload w
  = if decide (k = "tablename") then (Raise TypeError, w)
    else (Raise NoResults, after_get w tablename {[ k := v ]}).
Proof.
  intros Hl Hk Hv Hm. pose proof (query_of_pair k v w Hk Hv) as Hq.
  destruct (decide (k = "tablename")) as [->|Hne].
  - by apply update_record_tablename_key with v.
  - apply (update_record_run_none opts pysnow_exists); [exact Hl|exact Hq| |exact Hm].
    by apply singleton_not_tablename.
Qed.

Lemma update_record_no_match_raises_witness :
  loaded Fixture.opts true Fixture.remote
  ∧ contains "=" "number" = false
  ∧ contains "=" "INC00000" = false
  ∧ matching Fixture.remote "incident" {[ "number" := "INC00000" ]} = []
  ∧ update_record Fixture.opts "incident" "number=INC00000"
      {[ "stage" := "accepted" ]} Fixture.remote
    = (Raise NoResults,
       after_get Fixture.remote "incident" {[ "number" := "INC00000" ]}).
Proof.
  assert (Hl : loaded Fixture.opts true Fixture.remote) by (vm_compute; reflexivity).
  assert (Hk : contains "=" "number" = false) by reflexivity.
  assert (Hv : contains "=" "INC00000" = false) by reflexivity.
  assert (Hm : matching Fixture.remote "incident" {[ "number" := "INC00000" ]} = [])
    by (vm_compute; reflexivity).
  split; [exact Hl|]. split; [exact Hk|]. split; [exact Hv|]. split; [exact Hm|].
  exact (update_record_no_match_raises Fixture.opts true Fixture.remote
           "incident" "number" "INC00000" {[ "stage" := "accepted" ]} Hl Hk Hv Hm).
Defined.

(** C7, as the spec words it, fails in two places. The filter is passed
    on as keyword arguments, so with "tablename=cmdb_ci", which matches
    exactly one row, the call of [_get_response] is refused with
    TypeError and nothing is sent. And the update goes through the
    record's sys_id: when the one row matching "number=INC23301" shares
    its sys_id with another row, the lookup by sys_id raises
    MultipleResults and no row is updated. *)
Lemma update_record_one_match_not_enough :
  loaded Fixture.opts true Cases.with_tablename_field
  ∧ matching Cases.with_tablename_field "incident" {[ "tablename" := "cmdb_ci" ]}
    = [Cases.t1]
  ∧ update_record Fixture.opts "incident" "tablename=cmdb_ci"
      {[ "stage" := "accepted" ]} Cases.with_tablename_field
    = (Raise TypeError, Cases.with_tablename_field)
  ∧ matching Cases.shared_sys_id "incident" {[ "number" := "INC23301" ]}
    = [Cases.twin1]
  ∧ (update_record Fixture.opts "incident" "number=INC23301"
       {[ "stage" := "accepted" ]} Cases.shared_sys_id).1
    = Raise MultipleResults
  ∧ rows_of (update_record Fixture.opts "incident" "number=INC23301"
               {[ "stage" := "accepted" ]} Cases.shared_sys_id).2 "incident"
    = [Cases.twin1; Cases.twin2].
Proof. split_and!; vm_compute; reflexivity. Qed.

(** C7, amended. On a loaded module, with a well-formed "k=v" whose key is
    not "tablename" and whose filter matches exactly one row [r] of a
    table with unique sys_ids, [update_record] answers [r] with the fields
    of the payload written over it: every field of the payload has the
    payload's value, every other field is as in [r]; and in the remote
    table that row, and no other, has been replaced by the answer. *)
Theorem update_record_applies_payload
    (opts : gmap string pyval) (pysnow_exists : bool) (w : world)
    (tablename k v : string) (payload r : record) :
  loaded opts pysnow_exists w →
  contains "=" k = false →
  contains "=" v = false →
  k ≠ "tablename" →
  matching w tablename {[ k := v ]} = [r] →
  sys_ids_unique (rows_of w tablename) →
  (update_record opts tablename (k +:+ "=" +:+ v) payload w).1
  = Ok (Some (payload ∪ r))
  ∧ (∀ f x, payload !! f = Some x → (payload ∪ r) !! f = Some x)
  ∧ (∀ f, payload !! f = None → (payload ∪ r) !! f = r !! f)
  ∧ ∃ pre post,
      rows_of w tablename = pre ++ r :: post
      ∧ rows_of (update_record opts tablename (k +:+ "=" +:+ v) payload w).2 tablename
        = pre ++ (payload ∪ r) :: post.
Proof.
  intros Hl Hk Hv Hkw Hm [Hall Hnd].
  assert (Hin : r ∈ rows_of w tablename).
  { assert (Hr : r ∈ matching w tablename {[ k := v ]}) by (rewrite Hm; set_solver).
    unfold matching in Hr. by apply list_elem_of_filter in Hr as [_ Hr]. }
  rewrite Forall_forall in Hall. destruct (Hall r Hin) as [sid Hsid].
  destruct (unique_sys_id_row sid payload _ r Hnd Hin Hsid)
    as (Huniq & pre & post & Hpre & Hput).
  rewrite (update_record_run_one opts pysnow_exists w tablename _ {[ k := v ]}
             payload r sid Hl (query_of_pair k v w Hk Hv)
             (singleton_not_tablename k v Hkw) Hm Hsid Huniq).
  cbn [fst snd]. split_and!.
  - reflexivity.
  - intros f x Hf. by apply lookup_union_Some_l.
  - intros f Hf. by apply lookup_union_r.
  - exists pre, post. split; [exact Hpre|].
    unfold rows_of at 1. cbn [tables]. by rewrite lookup_insert_eq.
Qed.

Lemma update_record_applies_payload_witness :
  loaded Fixture.opts true Fixture.remote
  ∧ contains "=" "number" = false
  ∧ contains "=" "INC23301" = false
  ∧ "number" ≠ "tablename"
  ∧ matching Fixture.remote "incident" {[ "number" := "INC23301" ]} = [Fixture.inc1]
  ∧ sys_ids_unique (rows_of Fixture.remote "incident")
  ∧ (update_record Fixture.opts "incident" "number=INC23301"
       {[ "stage" := "accepted" ]} Fixture.remote).1
    = Ok (Some ({[ "stage" := "accepted" ]} ∪ Fixture.inc1)).
Proof.
  assert (Hl : loaded Fixture.opts true Fixture.remote) by (vm_compute; reflexivity).
  assert (Hk : contains "=" "number" = false) by reflexivity.
  assert (Hv : contains "=" "INC23301" = false) by reflexivity.
  assert (Hkw : "number" ≠ "tablename") by discriminate.
  assert (Hm : matching Fixture.remote "incident" {[ "number" := "INC23301" ]}
               = [Fixture.inc1]) by (vm_compute; reflexivity).
  assert (Hu : sys_ids_unique (rows_of Fixture.remote "incident")).
  { unfold sys_ids_unique. apply (bool_decide_unpack _). vm_compute. reflexivity. }
  split; [exact Hl|]. split; [exact Hk|]. split; [exact Hv|]. split; [exact Hkw|].
  split; [exact Hm|]. split; [exact Hu|].
  exact (proj1 (update_record_applies_payload Fixture.opts true Fixture.remote
                  "incident" "number" "INC23301" {[ "stage" := "accepted" ]}
                  Fixture.inc1 Hl Hk Hv Hkw Hm Hu)).
Defined.

(** The example of the spec, run on the fixture: the incident comes back
    with [stage] set to "accepted" and is stored that way. *)
Example update_record_stage_accepted :
  (update_record Fixture.opts "incident" "number=INC23301"
     {[ "stage" := "accepted" ]} Fixture.remote).1
  = Ok (Some Fixture.inc1_accepted)
  ∧ rows_of (update_record Fixture.opts "incident" "number=INC23301"
               {[ "stage" := "accepted" ]} Fixture.remote).2 "incident"
    = [Fixture.inc1_accepted; Fixture.inc2].
Proof. split; vm_compute; reflexivity. Qed.

(* ===================================================================== *)
(* Further properties of the module                                        *)
(* ===================================================================== *)

(* --------------------------------------------------------------------- *)
(* __virtual__: the whole answer and the log                               *)
(* --------------------------------------------------------------------- *)

Section VirtualAnswer.

Variable opts : gmap string pyval.

Lemma truthy_is_set k :
  contains ":" k = false →
  Py.truthy (config_get opts ("service_now:" +:+ k)) = is_set opts k.
Proof.
  intros Hk. rewrite (config_get_setting opts k Hk). unfold is_set.
  by destruct (setting opts k).
Qed.

Lemma forallb_truthy_is_set keys :
  Forall (λ k, contains ":" k = false) keys →
  forallb (λ k, Py.truthy (config_get opts ("service_now:" +:+ k))) keys
  = forallb (is_set opts) keys.
Proof.
  induction 1 as [|k keys Hk _ IH]; [done|].
  cbn [forallb]. by rewrite (truthy_is_set k Hk), IH.
Qed.

Lemma required_all_no_colon : Forall (λ k, contains ":" k = false) required.
Proof. apply Forall_forall. intros k Hk. by apply required_no_colon. Qed.

(** The loop logs one error for every key that is not set, in the order
    of the keys, and goes on to the end. *)
Lemma virtual_loop_log keys virtual_ret w :
  Forall (λ k, contains ":" k = false) keys →
  log (virtual_loop opts keys virtual_ret w).2
  = log w ++ ((λ k, LogError (missing_message k))
                <$> filter (λ k, is_set opts k = false) keys).
Proof.
  intros Hkeys. revert virtual_ret w.
  induction Hkeys as [|k keys Hk _ IH]; intros vr w.
  - simpl. by rewrite app_nil_r.
  - cbn [virtual_loop]. rewrite (truthy_is_set k Hk), filter_cons.
    destruct (is_set opts k); cbn [negb].
    + rewrite decide_False by done. apply IH.
    + rewrite decide_True by done. unfold bind, logging. rewrite IH.
      cbn [log]. rewrite fmap_cons, <- app_assoc. reflexivity.
Qed.

End VirtualAnswer.

(** X1. [__virtual__] answers the module name "snow" exactly when pysnow
    could be imported and the three settings are all present and not
    empty, and False in every other case; either way it sends nothing
    over the network and leaves the remote tables alone. *)
Theorem virtual_answer
    (opts : gmap string pyval) (pysnow_exists : bool) (w : world) :
  (__virtual__ opts pysnow_exists w).1
  = Ok (if pysnow_exists && forallb (is_set opts) required
        then VirtualName "snow" else VirtualFalse)
  ∧ wire (__virtual__ opts pysnow_exists w).2 = wire w
  ∧ tables (__virtual__ opts pysnow_exists w).2 = tables w.
Proof.
  destruct (virtual_spec opts pysnow_exists w) as (Hv & Hw & Ht).
  split_and!; [|done..]. rewrite Hv.
  by rewrite (forallb_truthy_is_set opts required required_all_no_colon).
Qed.

(** X2. [__virtual__] does not stop at the first setting that is not set:
    it logs one error for each of them, in the order username, password,
    instance, and logs nothing else. *)
Theorem virtual_logs_every_missing_setting
    (opts : gmap string pyval) (pysnow_exists : bool) (w : world) :
  log (__virtual__ opts pysnow_exists w).2
  = log w ++ ((λ k, LogError (missing_message k))
                <$> filter (λ k, is_set opts k = false)
                      ["username"; "password"; "instance"]).
Proof.
  pose proof (virtual_loop_log opts required (VirtualName __virtualname__) w
                required_all_no_colon) as Hlog.
  unfold __virtual__, bind. fold required.
  destruct (virtual_loop opts required (VirtualName __virtualname__) w)
    as [[v|e] w']; exact Hlog.
Qed.

(** On the fixture with only [instance] configured, two errors are
    logged, username first. *)
Example virtual_logs_two_errors :
  (__virtual__ Cases.only_instance true Fixture.remote).1 = Ok VirtualFalse
  ∧ log (__virtual__ Cases.only_instance true Fixture.remote).2
    = [LogError "snow module-required config/pillar value service_now:username not defined";
       LogError "snow module-required config/pillar value service_now:password not defined"].
Proof. split; vm_compute; reflexivity. Qed.

(* --------------------------------------------------------------------- *)
(* The query string, for every string with an '='                          *)
(* --------------------------------------------------------------------- *)

Section SplitParts.

Variable sep : ascii.

(** No part of a split holds the separator. *)
Lemma split_parts_no_sep s :
  Forall (λ part, contains sep part = false) (Py.split sep s).
Proof.
  induction s as [|c s IH]; simpl; [by repeat constructor|].
  destruct (Ascii.eqb c sep) eqn:Hc; [by constructor|].
  destruct (Py.split sep s) as [|part parts]; simpl.
  - repeat constructor. simpl. by rewrite Hc.
  - apply Forall_cons in IH as [Hpart Hparts]. constructor; [|done].
    simpl. by rewrite Hc, Hpart.
Qed.

(** A string that holds the separator starts with a separator-free
    prefix followed by the separator. *)
Lemma contains_first s :
  contains sep s = true →
  ∃ k rest, s = k +:+ String sep rest ∧ contains sep k = false.
Proof.
  induction s as [|c s IH]; simpl; [done|].
  destruct (Ascii.eqb c sep) eqn:Hc; simpl.
  - intros _. apply Ascii.eqb_eq in Hc as ->. by exists "", s.
  - intros (k & rest & -> & Hk)%IH. exists (String c k), rest.
    split; [done|]. simpl. by rewrite Hc, Hk.
Qed.

(** The first part of a split is the string up to its first separator,
    or the whole string when it has none. *)
Lemma split_head s :
  ∃ v parts, Py.split sep s = v :: parts ∧ contains sep v = false
    ∧ ((parts = [] ∧ s = v) ∨ ∃ more, s = v +:+ String sep more).
Proof.
  destruct (contains sep s) eqn:Hs.
  - destruct (contains_first s Hs) as (v & more & -> & Hv).
    exists v, (Py.split sep more). rewrite (split_first _ _ _ Hv).
    split_and!; [done..|]. right. by exists more.
  - exists s, []. rewrite (split_no_sep _ _ Hs). split_and!; [done..|]. by left.
Qed.

End SplitParts.

(** With an '=' in the string, lines 101-102 do not raise. *)
Lemma query_of_ok (query_string : string) (w : world) :
  contains "=" query_string = true →
  ∃ query, query_of query_string w = (Ok query, w).
Proof.
  intros (k & rest & -> & Hk)%contains_first.
  rewrite (query_of_parts _ _ _ Hk). by eexists.
Qed.

(** X3. Whenever [query_string] holds an '=', the filter is built without
    error (no IndexError): it is a single pair {k: v}, where [k] is the
    text before the first '=' and [v] the text from there up to the next
    '=' or the end of the string; neither holds an '=', and both may be
    empty. *)
Theorem query_of_succeeds_with_equals (query_string : string) (w : world) :
  contains "=" query_string = true →
  ∃ k v,
    query_of query_string w = (Ok {[ k := v ]}, w)
    ∧ contains "=" k = false
    ∧ contains "=" v = false
    ∧ (query_string = k +:+ "=" +:+ v
       ∨ ∃ more, query_string = k +:+ "=" +:+ v +:+ "=" +:+ more).
Proof.
  intros (k & rest & -> & Hk)%contains_first.
  destruct (split_head "=" rest) as (v & parts & Hsplit & Hv & Hrest).
  exists k, v. rewrite (query_of_parts _ _ _ Hk), Hsplit.
  split_and!; [done..|].
  destruct Hrest as [[_ ->]|[more ->]]; [by left|right; by exists more].
Qed.

Lemma query_of_succeeds_with_equals_witness :
  contains "=" "=INC23301" = true
  ∧ ∃ k v, query_of "=INC23301" Fixture.remote = (Ok {[ k := v ]}, Fixture.remote)
      ∧ contains "=" k = false
      ∧ contains "=" v = false
      ∧ ("=INC23301" = k +:+ "=" +:+ v
         ∨ ∃ more, "=INC23301" = k +:+ "=" +:+ v +:+ "=" +:+ more).
Proof.
  assert (H : contains "=" "=INC23301" = true) by reflexivity.
  split; [exact H|].
  exact (query_of_succeeds_with_equals "=INC23301" Fixture.remote H).
Defined.

(* --------------------------------------------------------------------- *)
(* _client_for_table                                                       *)
(* --------------------------------------------------------------------- *)

Section ClientForTable.

Variable opts : gmap string pyval.

(** Building the handle writes one debug line and touches nothing else,
    whatever the configuration. *)
Lemma client_world tablename w :
  (_client_for_table opts tablename w).2
  = World (tables w) (wire w) (log w ++ [LogDebug "service_now_config: %s"]).
Proof.
  unfold _client_for_table.
  destruct (config_get opts "service_now") as [s|d]; run; [done|].
  destruct (d !! "instance"); run; [|done].
  destruct (d !! "username"); run; [|done].
  by destruct (d !! "password").
Qed.

(** The handle is not built when [service_now] is not a dict, or when the
    dict lacks one of the keys, read in the order instance, username,
    password. *)
Lemma client_raises_without_dict tablename w :
  (∀ d, opts !! "service_now" ≠ Some (PyDict d)) →
  (_client_for_table opts tablename w).1 = Raise TypeError.
Proof.
  intros Hno. unfold _client_for_table. rewrite config_get_section.
  destruct (opts !! "service_now") as [[s|d]|]; [done| |done].
  by destruct (Hno d).
Qed.

Lemma client_raises_without_instance d tablename w :
  opts !! "service_now" = Some (PyDict d) → d !! "instance" = None →
  (_client_for_table opts tablename w).1 = Raise (KeyError "instance").
Proof.
  intros Hd Hi. unfold _client_for_table. rewrite config_get_section, Hd.
  run. by rewrite Hi.
Qed.

Lemma client_raises_without_username d tablename w :
  opts !! "service_now" = Some (PyDict d) →
  is_Some (d !! "instance") → d !! "username" = None →
  (_client_for_table opts tablename w).1 = Raise (KeyError "username").
Proof.
  intros Hd [i Hi] Hu. unfold _client_for_table. rewrite config_get_section, Hd.
  run. rewrite Hi. run. by rewrite Hu.
Qed.

Lemma client_raises_without_password d tablename w :
  opts !! "service_now" = Some (PyDict d) →
  is_Some (d !! "instance") → is_Some (d !! "username") → d !! "password" = None →
  (_client_for_table opts tablename w).1 = Raise (KeyError "password").
Proof.
  intros Hd [i Hi] [u Hu] Hp. unfold _client_for_table.
  rewrite config_get_section, Hd.
  run. rewrite Hi. run. rewrite Hu. run. by rewrite Hp.
Qed.

End ClientForTable.

(* --------------------------------------------------------------------- *)
(* Calling the operations without a complete configuration                *)
(* --------------------------------------------------------------------- *)

Section Unconfigured.

Variable opts : gmap string pyval.

Lemma client_raises_run tablename w e :
  (_client_for_table opts tablename w).1 = Raise e →
  _client_for_table opts tablename w = (Raise e, after_debug w).
Proof.
  intros He. pose proof (client_world opts tablename w) as Hw.
  destruct (_client_for_table opts tablename w) as [r w1].
  cbn [fst snd] in *. by subst.
Qed.

Lemma get_record_client_raises tablename kwargs w e :
  (_client_for_table opts tablename w).1 = Raise e →
  get_record opts tablename kwargs w = (Raise e, after_debug w).
Proof.
  intros He%client_raises_run. unfold get_record, _get_response, bind.
  by rewrite He.
Qed.

Lemma get_records_client_raises tablename n kwargs w e :
  (_client_for_table opts tablename w).1 = Raise e →
  get_records opts tablename n kwargs w = (Raise e, after_debug w).
Proof.
  intros He%client_raises_run. unfold get_records, bind. by rewrite He.
Qed.

Lemma get_incident_client_raises number key w e :
  (_client_for_table opts "incident" w).1 = Raise e →
  get_incident opts number key w = (Raise e, after_debug w).
Proof.
  intros He%client_raises_run. unfold get_incident, bind. by rewrite He.
Qed.

Lemma update_record_client_raises tablename k rest payload w e :
  contains "=" k = false → k ≠ "tablename" →
  (_client_for_table opts tablename w).1 = Raise e →
  update_record opts tablename (k +:+ "=" +:+ rest) payload w
  = (Raise e, after_debug w).
Proof.
  intros Hk Hkw He%client_raises_run.
  unfold update_record, bind at 1.
  change (k +:+ "=" +:+ rest) with (k +:+ String "=" rest).
  rewrite (query_of_parts _ _ _ Hk).
  unfold bind at 1, Py.bind_keywords.
  rewrite (singleton_not_tablename _ _ Hkw). unfold ret at 1.
  unfold _get_response, bind. by rewrite He.
Qed.

(** When [_client_for_table] raises [e] for every table, so do the
    operations. *)
Lemma all_raise_of_client w e :
  (∀ tablename, (_client_for_table opts tablename w).1 = Raise e) →
  all_raise opts w e.
Proof.
  intros He. unfold all_raise. split_and!; intros.
  - by apply get_record_client_raises.
  - by apply get_records_client_raises.
  - by apply get_incident_client_raises.
  - by apply update_record_client_raises.
Qed.

End Unconfigured.

(** X5. With an incomplete configuration every operation raises before
    anything is sent; the wire and the remote tables are as before and
    only the debug line of [_client_for_table] has been logged. The error
    is TypeError when [service_now] is not configured as a dict;
    otherwise it is the KeyError of the first key the dict lacks, in the
    order instance, username, password. ([update_record] is taken with a
    query string "k=..." whose key is not "tablename".) *)
Theorem operations_raise_before_any_request
    (opts : gmap string pyval) (w : world) :
  ((∀ d, opts !! "service_now" ≠ Some (PyDict d)) → all_raise opts w TypeError)
  ∧ (∀ d, opts !! "service_now" = Some (PyDict d) →
       (d !! "instance" = None → all_raise opts w (KeyError "instance"))
       ∧ (is_Some (d !! "instance") → d !! "username" = None →
          all_raise opts w (KeyError "username"))
       ∧ (is_Some (d !! "instance") → is_Some (d !! "username") →
          d !! "password" = None →
          all_raise opts w (KeyError "password"))).
Proof.
  split; [|intros d Hd; split_and!].
  - intros Hno. apply all_raise_of_client. intros t.
    by apply client_raises_without_dict.
  - intros Hi. apply all_raise_of_client. intros t.
    by apply (client_raises_without_instance opts d).
  - intros Hi Hu. apply all_raise_of_client. intros t.
    by apply (client_raises_without_username opts d).
  - intros Hi Hu Hp. apply all_raise_of_client. intros t.
    by apply (client_raises_without_password opts d).
Qed.

Lemma operations_raise_before_any_request_witness :
  Cases.no_username_key !! "service_now" = Some (PyDict Cases.no_username_dict)
  ∧ is_Some (Cases.no_username_dict !! "instance")
  ∧ Cases.no_username_dict !! "username" = None
  ∧ get_record Cases.no_username_key "incident" {[ "number" := "INC23301" ]}
      Fixture.remote
    = (Raise (KeyError "username"), after_debug Fixture.remote)
  ∧ update_record Cases.no_username_key "incident" "number=INC23301"
      {[ "stage" := "accepted" ]} Fixture.remote
    = (Raise (KeyError "username"), after_debug Fixture.remote).
Proof.
  assert (Hd : Cases.no_username_key !! "service_now"
               = Some (PyDict Cases.no_username_dict)) by (vm_compute; reflexivity).
  assert (Hi : is_Some (Cases.no_username_dict !! "instance"))
    by (eexists; vm_compute; reflexivity).
  assert (Hu : Cases.no_username_dict !! "username" = None)
    by (vm_compute; reflexivity).
  split; [exact Hd|]. split; [exact Hi|]. split; [exact Hu|].
  destruct (proj1 (proj2 (proj2 (operations_raise_before_any_request
                                   Cases.no_username_key Fixture.remote)
                            Cases.no_username_dict Hd)) Hi Hu)
    as (Hrec & _ & _ & Hupd).
  split; [apply Hrec|].
  apply (Hupd "incident" "number" "INC23301"); [reflexivity|discriminate].
Defined.

(** Without any [service_now] entry the error is the TypeError of
    indexing the empty string that [config.get] answers. *)
Example get_incident_without_configuration :
  get_incident Cases.nothing "INC23301" "number" Fixture.remote
  = (Raise TypeError, after_debug Fixture.remote).
Proof. vm_compute. reflexivity. Qed.

(* --------------------------------------------------------------------- *)
(* The fetch operations only read                                          *)
(* --------------------------------------------------------------------- *)

Section ReadOnly.

Variable opts : gmap string pyval.

Lemma get_run res query strm w :
  pysnow.get res query strm w
  = (Ok (pysnow.mkResponse res
           (filter (λ r, pysnow.matches query r = true)
              (default [] (tables w !! pysnow.api_path res))) strm),
     World (tables w) (wire w ++ [HttpGet (pysnow.api_path res) query]) (log w)).
Proof. reflexivity. Qed.

Lemma one_or_none_world resp w : (pysnow.one_or_none resp w).2 = w.
Proof.
  unfold pysnow.one_or_none, catch, pysnow.one, bind.
  by destruct (pysnow.rows resp) as [|r [|r' rs]].
Qed.

Lemma first_tables resp w : tables (pysnow.first resp w).2 = tables w.
Proof.
  unfold pysnow.first, pysnow.all. destruct (pysnow.stream resp); [|done].
  by destruct (pysnow.rows resp).
Qed.

Lemma list_islice_tables it stop w :
  tables (Py.list_islice it stop w).2 = tables w.
Proof.
  unfold Py.list_islice. destruct ((stop <? 0) || (Py.maxsize <? stop))%Z; [done|].
  by rewrite islice_items_take.
Qed.

Lemma client_cases tablename w :
  (∃ e, _client_for_table opts tablename w = (Raise e, after_debug w))
  ∨ (∃ res, _client_for_table opts tablename w = (Ok res, after_debug w)).
Proof.
  pose proof (client_world opts tablename w) as Hw.
  destruct (_client_for_table opts tablename w) as [[res|e] w1];
    cbn [snd] in Hw; subst w1; [right|left]; by eexists.
Qed.

End ReadOnly.

(** X6. The three fetch operations only read: whatever the configuration,
    the arguments and the outcome (a result or an exception), the remote
    tables after [get_record], [get_records] and [get_incident] are the
    tables before. *)
Theorem fetch_operations_are_read_only
    (opts : gmap string pyval) (w : world) (tablename : string)
    (kwargs : record) (max_results : Z) (incident_number key : string) :
  tables (get_record opts tablename kwargs w).2 = tables w
  ∧ tables (get_records opts tablename max_results kwargs w).2 = tables w
  ∧ tables (get_incident opts incident_number key w).2 = tables w.
Proof.
  split_and!.
  - unfold get_record, _get_response, bind.
    destruct (client_cases opts tablename w) as [[e ->]|[res ->]]; [done|].
    rewrite get_run. unfold ret. cbv beta iota. by rewrite one_or_none_world.
  - unfold get_records, bind.
    destruct (client_cases opts tablename w) as [[e ->]|[res ->]]; [done|].
    rewrite get_run. unfold ret. cbv beta iota.
    match goal with
    | |- context [Py.list_islice ?it ?n ?w'] =>
        pose proof (list_islice_tables it n w') as Ht;
        destruct (Py.list_islice it n w') as [[rs|e] w2]
    end; exact Ht.
  - unfold get_incident, bind.
    destruct (client_cases opts "incident" w) as [[e ->]|[res ->]]; [done|].
    rewrite get_run. cbv beta iota. by rewrite first_tables.
Qed.

(* --------------------------------------------------------------------- *)
(* update_record: ambiguity, requests sent, round trip, frame              *)
(* --------------------------------------------------------------------- *)

(** X7. On a loaded module, with a well-formed "k=v" whose key is not
    "tablename" and whose filter matches two or more rows,
    [update_record] raises MultipleResults and updates none of them: the
    wire shows the one GET and the tables are as before. *)
Theorem update_record_ambiguous_raises
    (opts : gmap string pyval) (pysnow_exists : bool) (w : world)
    (tablename k v : string) (payload r1 r2 : record) (others : list record) :
  loaded opts pysnow_exists w →
  contains "=" k = false →
  contains "=" v = false →
  k ≠ "tablename" →
  matching w tablename {[ k := v ]} = r1 :: r2 :: others →
  update_record opts tablename (k +:+ "=" +:+ v) payload w
  = (Raise MultipleResults, after_get w tablename {[ k := v ]}).
Proof.
  intros Hl Hk Hv Hkw Hm.
  apply (update_record_run_many opts pysnow_exists _ _ _ _ _ r1 r2 others);
    [exact Hl| | |exact Hm].
  - by apply query_of_pair.
  - by apply singleton_not_tablename.
Qed.

Lemma update_record_ambiguous_raises_witness :
  loaded Fixture.opts true Fixture.remote_dup
  ∧ contains "=" "number" = false
  ∧ contains "=" "INC23301" = false
  ∧ "number" ≠ "tablename"
  ∧ matching Fixture.remote_dup "incident" {[ "number" := "INC23301" ]}
    = [Fixture.inc1; Fixture.inc3]
  ∧ update_record Fixture.opts "incident" "number=INC23301"
      {[ "stage" := "accepted" ]} Fixture.remote_dup
    = (Raise MultipleResults,
       after_get Fixture.remote_dup "incident" {[ "number" := "INC23301" ]}).
Proof.
  assert (Hl : loaded Fixture.opts true Fixture.remote_dup) by (vm_compute; reflexivity).
  assert (Hk : contains "=" "number" = false) by reflexivity.
  assert (Hv : contains "=" "INC23301" = false) by reflexivity.
  assert (Hkw : "number" ≠ "tablename") by discriminate.
  assert (Hm : matching Fixture.remote_dup "incident" {[ "number" := "INC23301" ]}
               = [Fixture.inc1; Fixture.inc3]) by (vm_compute; reflexivity).
  split; [exact Hl|]. split; [exact Hk|]. split; [exact Hv|]. split; [exact Hkw|].
  split; [exact Hm|].
  exact (update_record_ambiguous_raises Fixture.opts true Fixture.remote_dup
           "incident" "number" "INC23301" {[ "stage" := "accepted" ]}
           Fixture.inc1 Fixture.inc3 [] Hl Hk Hv Hkw Hm).
Defined.

Section UpdateRoundTrip.

Variable opts : gmap string pyval.
Variable pysnow_exists : bool.

(** Whether the module loads does not depend on the world. *)
Lemma loaded_any_world w w' :
  loaded opts pysnow_exists w → loaded opts pysnow_exists w'.
Proof.
  unfold loaded.
  destruct (virtual_spec opts pysnow_exists w) as (-> & _).
  by destruct (virtual_spec opts pysnow_exists w') as (-> & _).
Qed.

(** The pieces of a successful update, in one place. *)
Lemma update_record_success w tablename k v payload (r : record) :
  loaded opts pysnow_exists w →
  contains "=" k = false → contains "=" v = false →
  k ≠ "tablename" →
  matching w tablename {[ k := v ]} = [r] →
  sys_ids_unique (rows_of w tablename) →
  ∃ sid pre post,
    r !! "sys_id" = Some sid
    ∧ rows_of w tablename = pre ++ r :: post
    ∧ update_record opts tablename (k +:+ "=" +:+ v) payload w
      = (Ok (Some (payload ∪ r)),
         World (<["/table/" +:+ tablename := pre ++ (payload ∪ r) :: post]> (tables w))
               (wire w ++ [HttpGet ("/table/" +:+ tablename) {[ k := v ]};
                           HttpGet ("/table/" +:+ tablename) {[ "sys_id" := sid ]};
                           HttpPut ("/table/" +:+ tablename) sid payload])
               (log w ++ [LogDebug "service_now_config: %s"])).
Proof.
  intros Hl Hk Hv Hkw Hm [Hall Hnd].
  assert (Hin : r ∈ rows_of w tablename).
  { assert (Hr : r ∈ matching w tablename {[ k := v ]}) by (rewrite Hm; apply list_elem_of_here).
    unfold matching in Hr. by apply list_elem_of_filter in Hr as [_ Hr]. }
  rewrite Forall_forall in Hall. destruct (Hall r Hin) as [sid Hsid].
  destruct (unique_sys_id_row sid payload _ r Hnd Hin Hsid)
    as (Huniq & pre & post & Hpre & Hput).
  exists sid, pre, post. split_and!; [done..|].
  rewrite (update_record_run_one opts pysnow_exists w tablename _ {[ k := v ]}
             payload r sid Hl (query_of_pair k v w Hk Hv)
             (singleton_not_tablename k v Hkw) Hm Hsid Huniq).
  by rewrite Hput.
Qed.

(** When a filter picks one row out of a table, it picks nothing before
    or after it. *)
Lemma filter_single {A} (P : A → Prop) `{!∀ x, Decision (P x)}
    (pre post : list A) (r : A) :
  filter P (pre ++ r :: post) = [r] →
  P r ∧ filter P pre = [] ∧ filter P post = [].
Proof.
  intros Hf.
  assert (Hr : r ∈ filter P (pre ++ r :: post)) by (rewrite Hf; apply list_elem_of_here).
  apply list_elem_of_filter in Hr as [HP _]. split; [done|].
  rewrite filter_app, filter_cons, decide_True in Hf by done.
  destruct (filter P pre) as [|x l]; simpl in Hf.
  - by injection Hf as ->.
  - injection Hf as _ Hf. by destruct l.
Qed.

End UpdateRoundTrip.

Section AfterUpdate.

Variable opts : gmap string pyval.
Variable pysnow_exists : bool.

(** The rows a one-pair filter finds once the row [r] it used to single
    out has been replaced by [r']. *)
Lemma matching_after_replace w tablename k v (pre post : list record)
    (r r' : record) (wire' : list event) (log' : list log_entry) :
  rows_of w tablename = pre ++ r :: post →
  matching w tablename {[ k := v ]} = [r] →
  matching (World (<["/table/" +:+ tablename := pre ++ r' :: post]> (tables w))
                  wire' log') tablename {[ k := v ]}
  = if bool_decide (r' !! k = Some v) then [r'] else [].
Proof.
  intros Hrows Hm. unfold matching in *. rewrite Hrows in Hm.
  apply filter_single in Hm as (_ & Hpre & Hpost).
  unfold rows_of. cbn [tables]. rewrite lookup_insert_eq.
  simpl (default _ _).
  rewrite filter_app, filter_cons, Hpre, Hpost, matches_singleton.
  destruct (bool_decide (r' !! k = Some v)); [by rewrite decide_True|].
  by rewrite decide_False.
Qed.

End AfterUpdate.

(** X9. Update, then fetch: after a successful [update_record] (loaded
    module, "k=v" with a key other than "tablename", one matching row,
    unique sys_ids) whose payload does not set the filter's own field, [get_record] with the
    same filter answers the record that [update_record] returned. *)
Theorem get_record_after_update_record
    (opts : gmap string pyval) (pysnow_exists : bool) (w : world)
    (tablename k v : string) (payload r : record) :
  loaded opts pysnow_exists w →
  contains "=" k = false →
  contains "=" v = false →
  k ≠ "tablename" →
  matching w tablename {[ k := v ]} = [r] →
  sys_ids_unique (rows_of w tablename) →
  payload !! k = None →
  (get_record opts tablename {[ k := v ]}
     (update_record opts tablename (k +:+ "=" +:+ v) payload w).2).1
  = (update_record opts tablename (k +:+ "=" +:+ v) payload w).1.
Proof.
  intros Hl Hk Hv Hkw Hm Hu Hpk.
  destruct (update_record_success opts pysnow_exists w tablename k v payload r
              Hl Hk Hv Hkw Hm Hu) as (sid & pre & post & Hsid & Hrows & ->).
  cbn [fst snd].
  rewrite (get_record_run opts pysnow_exists)
    by (by apply (loaded_any_world opts pysnow_exists w)).
  rewrite (matching_after_replace w tablename k v pre post r (payload ∪ r) _ _ Hrows Hm).
  assert (Hr : r !! k = Some v).
  { assert (Hin : r ∈ matching w tablename {[ k := v ]}) by (rewrite Hm; apply list_elem_of_here).
    unfold matching in Hin. apply list_elem_of_filter in Hin as [Hin _].
    rewrite matches_singleton in Hin. by apply bool_decide_eq_true in Hin. }
  rewrite bool_decide_eq_true_2; [done|].
  by rewrite lookup_union_r.
Qed.

Lemma get_record_after_update_record_witness :
  loaded Fixture.opts true Fixture.remote
  ∧ contains "=" "number" = false
  ∧ contains "=" "INC23301" = false
  ∧ "number" ≠ "tablename"
  ∧ matching Fixture.remote "incident" {[ "number" := "INC23301" ]} = [Fixture.inc1]
  ∧ sys_ids_unique (rows_of Fixture.remote "incident")
  ∧ ({[ "stage" := "accepted" ]} : record) !! "number" = None
  ∧ (get_record Fixture.opts "incident" {[ "number" := "INC23301" ]}
       (update_record Fixture.opts "incident" "number=INC23301"
          {[ "stage" := "accepted" ]} Fixture.remote).2).1
    = (update_record Fixture.opts "incident" "number=INC23301"
         {[ "stage" := "accepted" ]} Fixture.remote).1.
Proof.
  assert (Hl : loaded Fixture.opts true Fixture.remote) by (vm_compute; reflexivity).
  assert (Hk : contains "=" "number" = false) by reflexivity.
  assert (Hv : contains "=" "INC23301" = false) by reflexivity.
  assert (Hkw : "number" ≠ "tablename") by discriminate.
  assert (Hm : matching Fixture.remote "incident" {[ "number" := "INC23301" ]}
               = [Fixture.inc1]) by (vm_compute; reflexivity).
  assert (Hu : sys_ids_unique (rows_of Fixture.remote "incident")).
  { unfold sys_ids_unique. apply (bool_decide_unpack _). vm_compute. reflexivity. }
  assert (Hp : ({[ "stage" := "accepted" ]} : record) !! "number" = None)
    by (vm_compute; reflexivity).
  split; [exact Hl|]. split; [exact Hk|]. split; [exact Hv|]. split; [exact Hkw|].
  split; [exact Hm|].
  split; [exact Hu|]. split; [exact Hp|].
  exact (get_record_after_update_record Fixture.opts true Fixture.remote
           "incident" "number" "INC23301" {[ "stage" := "accepted" ]}
           Fixture.inc1 Hl Hk Hv Hkw Hm Hu Hp).
Defined.

(** X10. Moving a record out of its own filter (loaded module, "k=v" with
    a key other than "tablename", one matching row, unique sys_ids): when
    the payload sets the filter's field to another value, the update
    succeeds, and afterwards
    the old filter finds nothing, so [get_record] with it answers None. *)
Theorem get_record_after_update_of_filter_field
    (opts : gmap string pyval) (pysnow_exists : bool) (w : world)
    (tablename k v v' : string) (payload r : record) :
  loaded opts pysnow_exists w →
  contains "=" k = false →
  contains "=" v = false →
  k ≠ "tablename" →
  matching w tablename {[ k := v ]} = [r] →
  sys_ids_unique (rows_of w tablename) →
  payload !! k = Some v' →
  v' ≠ v →
  (update_record opts tablename (k +:+ "=" +:+ v) payload w).1
  = Ok (Some (payload ∪ r))
  ∧ (get_record opts tablename {[ k := v ]}
       (update_record opts tablename (k +:+ "=" +:+ v) payload w).2).1
    = Ok None.
Proof.
  intros Hl Hk Hv Hkw Hm Hu Hpk Hne.
  destruct (update_record_success opts pysnow_exists w tablename k v payload r
              Hl Hk Hv Hkw Hm Hu) as (sid & pre & post & Hsid & Hrows & ->).
  cbn [fst snd]. split; [done|].
  rewrite (get_record_run opts pysnow_exists)
    by (by apply (loaded_any_world opts pysnow_exists w)).
  rewrite (matching_after_replace w tablename k v pre post r (payload ∪ r) _ _ Hrows Hm).
  rewrite bool_decide_eq_false_2; [done|].
  rewrite (lookup_union_Some_l _ _ _ _ Hpk). congruence.
Qed.

Lemma get_record_after_update_of_filter_field_witness :
  loaded Fixture.opts true Cases.lone_incident
  ∧ contains "=" "stage" = false
  ∧ contains "=" "new" = false
  ∧ "stage" ≠ "tablename"
  ∧ matching Cases.lone_incident "incident" {[ "stage" := "new" ]} = [Fixture.inc1]
  ∧ sys_ids_unique (rows_of Cases.lone_incident "incident")
  ∧ ({[ "stage" := "accepted" ]} : record) !! "stage" = Some "accepted"
  ∧ "accepted" ≠ "new"
  ∧ (get_record Fixture.opts "incident" {[ "stage" := "new" ]}
       (update_record Fixture.opts "incident" "stage=new"
          {[ "stage" := "accepted" ]} Cases.lone_incident).2).1
    = Ok None.
Proof.
  assert (Hl : loaded Fixture.opts true Cases.lone_incident) by (vm_compute; reflexivity).
  assert (Hk : contains "=" "stage" = false) by reflexivity.
  assert (Hv : contains "=" "new" = false) by reflexivity.
  assert (Hkw : "stage" ≠ "tablename") by discriminate.
  assert (Hm : matching Cases.lone_incident "incident" {[ "stage" := "new" ]}
               = [Fixture.inc1]) by (vm_compute; reflexivity).
  assert (Hu : sys_ids_unique (rows_of Cases.lone_incident "incident")).
  { unfold sys_ids_unique. apply (bool_decide_unpack _). vm_compute. reflexivity. }
  assert (Hp : ({[ "stage" := "accepted" ]} : record) !! "stage" = Some "accepted")
    by (vm_compute; reflexivity).
  assert (Hne : "accepted" ≠ "new") by discriminate.
  split; [exact Hl|]. split; [exact Hk|]. split; [exact Hv|]. split; [exact Hkw|].
  split; [exact Hm|].
  split; [exact Hu|]. split; [exact Hp|]. split; [exact Hne|].
  exact (proj2 (get_record_after_update_of_filter_field Fixture.opts true
                  Cases.lone_incident "incident" "stage" "new" "accepted"
                  {[ "stage" := "accepted" ]} Fixture.inc1 Hl Hk Hv Hkw Hm Hu Hp Hne)).
Defined.

Section Idempotence.

(** Replacing a row by one with the same sys_id keeps the sys_ids
    unique. *)
Lemma sys_ids_unique_replace (pre post : list record) (r r' : record) :
  r' !! "sys_id" = r !! "sys_id" →
  sys_ids_unique (pre ++ r :: post) → sys_ids_unique (pre ++ r' :: post).
Proof.
  intros Hsame [Hall Hnd]. split.
  - rewrite Forall_app, Forall_cons in Hall |- *. rewrite Hsame. exact Hall.
  - rewrite fmap_app, fmap_cons in Hnd |- *. by rewrite Hsame.
Qed.

Lemma rows_of_insert w tablename rows wire' log' :
  rows_of (World (<["/table/" +:+ tablename := rows]> (tables w)) wire' log')
    tablename = rows.
Proof. unfold rows_of. cbn [tables]. by rewrite lookup_insert_eq. Qed.

End Idempotence.

(** X11. [update_record] (loaded module, "k=v" with a key other than
    "tablename", one matching row, unique sys_ids) is idempotent on a
    payload that sets neither the filter's field nor sys_id: run a second
    time with the same arguments
    after a successful first run, it answers the same record and leaves
    the table exactly as the first run left it. *)
Theorem update_record_twice
    (opts : gmap string pyval) (pysnow_exists : bool) (w : world)
    (tablename k v : string) (payload r : record) :
  loaded opts pysnow_exists w →
  contains "=" k = false →
  contains "=" v = false →
  k ≠ "tablename" →
  matching w tablename {[ k := v ]} = [r] →
  sys_ids_unique (rows_of w tablename) →
  payload !! k = None →
  payload !! "sys_id" = None →
  (update_record opts tablename (k +:+ "=" +:+ v) payload
     (update_record opts tablename (k +:+ "=" +:+ v) payload w).2).1
  = (update_record opts tablename (k +:+ "=" +:+ v) payload w).1
  ∧ rows_of (update_record opts tablename (k +:+ "=" +:+ v) payload
               (update_record opts tablename (k +:+ "=" +:+ v) payload w).2).2
      tablename
    = rows_of (update_record opts tablename (k +:+ "=" +:+ v) payload w).2 tablename.
Proof.
  intros Hl Hk Hv Hkw Hm Hu Hpk Hps.
  destruct (update_record_success opts pysnow_exists w tablename k v payload r
              Hl Hk Hv Hkw Hm Hu) as (sid & pre & post & Hsid & Hrows & ->).
  cbn [fst snd].
  match goal with |- context [update_record _ _ _ _ ?w1] => set (w' := w1) end.
  assert (Hl' : loaded opts pysnow_exists w')
    by (by apply (loaded_any_world opts pysnow_exists w)).
  assert (Hr : r !! k = Some v).
  { assert (Hin : r ∈ matching w tablename {[ k := v ]}) by (rewrite Hm; apply list_elem_of_here).
    unfold matching in Hin. apply list_elem_of_filter in Hin as [Hin _].
    rewrite matches_singleton in Hin. by apply bool_decide_eq_true in Hin. }
  assert (Hm' : matching w' tablename {[ k := v ]} = [payload ∪ r]).
  { unfold w'.
    rewrite (matching_after_replace w tablename k v pre post r (payload ∪ r) _ _ Hrows Hm).
    rewrite bool_decide_eq_true_2; [done|]. by rewrite lookup_union_r. }
  assert (Hrows' : rows_of w' tablename = pre ++ (payload ∪ r) :: post)
    by apply rows_of_insert.
  assert (Hu' : sys_ids_unique (rows_of w' tablename)).
  { rewrite Hrows'. apply (sys_ids_unique_replace pre post r).
    - by rewrite lookup_union_r.
    - by rewrite <- Hrows. }
  destruct (update_record_success opts pysnow_exists w' tablename k v payload
              (payload ∪ r) Hl' Hk Hv Hkw Hm' Hu')
    as (sid2 & pre2 & post2 & _ & Hrows2 & ->).
  cbn [fst snd]. rewrite map_union_assoc, map_union_idemp.
  split; [done|]. by rewrite rows_of_insert, Hrows2.
Qed.

Lemma update_record_twice_witness :
  loaded Fixture.opts true Fixture.remote
  ∧ contains "=" "number" = false
  ∧ contains "=" "INC23301" = false
  ∧ "number" ≠ "tablename"
  ∧ matching Fixture.remote "incident" {[ "number" := "INC23301" ]} = [Fixture.inc1]
  ∧ sys_ids_unique (rows_of Fixture.remote "incident")
  ∧ ({[ "stage" := "accepted" ]} : record) !! "number" = None
  ∧ ({[ "stage" := "accepted" ]} : record) !! "sys_id" = None
  ∧ (update_record Fixture.opts "incident" "number=INC23301" {[ "stage" := "accepted" ]}
       (update_record Fixture.opts "incident" "number=INC23301"
          {[ "stage" := "accepted" ]} Fixture.remote).2).1
    = (update_record Fixture.opts "incident" "number=INC23301"
         {[ "stage" := "accepted" ]} Fixture.remote).1.
Proof.
  assert (Hl : loaded Fixture.opts true Fixture.remote) by (vm_compute; reflexivity).
  assert (Hk : contains "=" "number" = false) by reflexivity.
  assert (Hv : contains "=" "INC23301" = false) by reflexivity.
  assert (Hkw : "number" ≠ "tablename") by discriminate.
  assert (Hm : matching Fixture.remote "incident" {[ "number" := "INC23301" ]}
               = [Fixture.inc1]) by (vm_compute; reflexivity).
  assert (Hu : sys_ids_unique (rows_of Fixture.remote "incident")).
  { unfold sys_ids_unique. apply (bool_decide_unpack _). vm_compute. reflexivity. }
  assert (Hp : ({[ "stage" := "accepted" ]} : record) !! "number" = None)
    by (vm_compute; reflexivity).
  assert (Hs : ({[ "stage" := "accepted" ]} : record) !! "sys_id" = None)
    by (vm_compute; reflexivity).
  split; [exact Hl|]. split; [exact Hk|]. split; [exact Hv|]. split; [exact Hkw|].
  split; [exact Hm|].
  split; [exact Hu|]. split; [exact Hp|]. split; [exact Hs|].
  exact (proj1 (update_record_twice Fixture.opts true Fixture.remote
                  "incident" "number" "INC23301" {[ "stage" := "accepted" ]}
                  Fixture.inc1 Hl Hk Hv Hkw Hm Hu Hp Hs)).
Defined.

(* --------------------------------------------------------------------- *)
(* update_record touches one table only                                    *)
(* --------------------------------------------------------------------- *)

Section Frame.

Variable opts : gmap string pyval.

Lemma one_world resp w : (pysnow.one resp w).2 = w.
Proof. unfold pysnow.one. by destruct (pysnow.rows resp) as [|r [|r' rs]]. Qed.

Lemma query_of_world query_string w : (query_of query_string w).2 = w.
Proof.
  unfold query_of, Py.getitem, bind.
  destruct (Py.split "=" query_string) as [|k [|v parts]]; reflexivity.
Qed.

Lemma client_ok_path tablename w res w1 :
  _client_for_table opts tablename w = (Ok res, w1) →
  pysnow.api_path res = "/table/" +:+ tablename.
Proof.
  unfold _client_for_table.
  destruct (config_get opts "service_now") as [s|d]; run; [done|].
  destruct (d !! "instance"); run; [|done].
  destruct (d !! "username"); run; [|done].
  destruct (d !! "password"); run; [|done].
  by intros [= <- _].
Qed.

(** [Response.update] writes, if at all, to the table of its own
    resource. *)
Lemma update_tables resp payload w :
  tables (pysnow.update resp payload w).2 = tables w
  ∨ ∃ rows, tables (pysnow.update resp payload w).2
            = <[pysnow.api_path (pysnow.resp_resource resp) := rows]> (tables w).
Proof.
  unfold pysnow.update, pysnow.getitem, bind.
  pose proof (one_world resp w) as H1.
  destruct (pysnow.one resp w) as [[r|e] w1]; cbn [snd] in *; subst w1;
    [|by left].
  unfold pysnow.resource_update, pysnow.get. run.
  match goal with
  | |- context [pysnow.one ?found ?w'] =>
      pose proof (one_world found w') as H2;
      destruct (pysnow.one found w') as [[r2|e] w2]; cbn [snd] in *; subst w2
  end; [|by left].
  destruct (r2 !! "sys_id") as [sid|]; [|by left].
  unfold pysnow.put. run.
  match goal with
  | |- context [filter ?P ?l] => destruct (filter P l)
  end; cbn [snd tables]; [by left|right; by eexists].
Qed.

Lemma table_path_inj t t' : "/table/" +:+ t = "/table/" +:+ t' → t = t'.
Proof. simpl. intros H. by injection H. Qed.

End Frame.

(** X12. [update_record] never touches another table: whatever the
    configuration, the arguments and the outcome, the rows of every table
    other than [tablename] are after the call what they were before. *)
Theorem update_record_leaves_other_tables
    (opts : gmap string pyval) (w : world)
    (tablename query_string other : string) (payload : record) :
  other ≠ tablename →
  rows_of (update_record opts tablename query_string payload w).2 other
  = rows_of w other.
Proof.
  intros Hother. unfold update_record, bind at 1.
  pose proof (query_of_world query_string w) as Hq.
  destruct (query_of query_string w) as [[query|e] w0]; cbn [snd] in Hq; subst w0;
    [|done].
  unfold bind at 1, Py.bind_keywords.
  destruct (query !! "tablename"); [done|]. unfold ret at 1.
  unfold _get_response, bind.
  destruct (client_cases opts tablename w) as [[e Hc]|[res Hc]]; rewrite Hc; [done|].
  apply client_ok_path in Hc. rewrite get_run. unfold ret. cbv beta iota.
  cbn [pysnow.truth].
  match goal with
  | |- context [pysnow.update ?resp payload ?w1] =>
      pose proof (update_tables resp payload w1) as Ht;
      destruct (pysnow.update resp payload w1) as [[u|e] w2]
  end; cbn [snd tables pysnow.resp_resource after_debug] in Ht.
  - assert (Hw : ∀ w3, (let (r, w') := pysnow.one u w2 in
                        match r with
                        | Ok a => (Ok (Some a), w')
                        | Raise e => (Raise e, w')
                        end) = w3 → w3.2 = w2).
    { intros w3 <-. pose proof (one_world u w2) as Ho.
      by destruct (pysnow.one u w2) as [[a|e] w4]. }
    rewrite (Hw _ eq_refl). unfold rows_of.
    destruct Ht as [->|[rows ->]]; [done|].
    rewrite lookup_insert_ne; [done|].
    rewrite Hc. intros Heq%table_path_inj. by apply Hother.
  - cbn [snd]. unfold rows_of.
    destruct Ht as [->|[rows ->]]; [done|].
    rewrite lookup_insert_ne; [done|].
    rewrite Hc. intros Heq%table_path_inj. by apply Hother.
Qed.

Lemma update_record_leaves_other_tables_witness :
  "problem" ≠ "incident"
  ∧ rows_of (update_record Fixture.opts "incident" "number=INC23301"
               {[ "stage" := "accepted" ]} Cases.two_tables).2 "problem"
    = rows_of Cases.two_tables "problem".
Proof.
  assert (H : "problem" ≠ "incident") by discriminate.
  split; [exact H|].
  exact (update_record_leaves_other_tables Fixture.opts Cases.two_tables
           "incident" "number=INC23301" "problem" {[ "stage" := "accepted" ]} H).
Defined.

(* --------------------------------------------------------------------- *)
(* How the fetch operations relate                                         *)
(* --------------------------------------------------------------------- *)

(** X13. On a loaded module [get_incident] is [get_records] on the
    incident table with [max_results = 1], unwrapped: it answers [r]
    exactly when [get_records] answers [[r]], raises NoResults exactly
    when [get_records] answers the empty list, and leaves the same wire
    and tables behind. *)
Theorem get_incident_is_get_records_one
    (opts : gmap string pyval) (pysnow_exists : bool) (w : world)
    (incident_number key : string) :
  loaded opts pysnow_exists w →
  (∀ r, (get_incident opts incident_number key w).1 = Ok r
        ↔ (get_records opts "incident" 1 {[ key := incident_number ]} w).1 = Ok [r])
  ∧ ((get_incident opts incident_number key w).1 = Raise NoResults
     ↔ (get_records opts "incident" 1 {[ key := incident_number ]} w).1 = Ok [])
  ∧ (get_incident opts incident_number key w).2
    = (get_records opts "incident" 1 {[ key := incident_number ]} w).2.
Proof.
  intros Hl.
  rewrite (get_incident_run _ _ _ _ _ Hl), (get_records_run _ _ _ _ _ _ Hl).
  rewrite list_islice_in_range by (by vm_compute).
  change (Z.to_nat 1) with 1%nat.
  destruct (matching w "incident" {[ key := incident_number ]}) as [|r0 found];
    cbn [take fmap list_fmap fst snd wire tables log after_get].
  - split_and!; [intros r; split; intros [=]|done|by rewrite app_nil_r].
  - split_and!.
    + intros r. split; intros [= ->]; reflexivity.
    + split; intros [=].
    + by rewrite <- app_assoc.
Qed.

Lemma get_incident_is_get_records_one_witness :
  loaded Fixture.opts true Fixture.remote_dup
  ∧ (get_incident Fixture.opts "INC23301" "number" Fixture.remote_dup).2
    = (get_records Fixture.opts "incident" 1 {[ "number" := "INC23301" ]}
         Fixture.remote_dup).2.
Proof.
  assert (Hl : loaded Fixture.opts true Fixture.remote_dup) by (vm_compute; reflexivity).
  split; [exact Hl|].
  exact (proj2 (proj2 (get_incident_is_get_records_one Fixture.opts true
                         Fixture.remote_dup "INC23301" "number" Hl))).
Defined.

(** X14. On a loaded module and for [max_results] from 2 up to
    sys.maxsize (the default 10 included), [get_record] and [get_records]
    agree on the same filter: None goes with the empty list, [Some r] with
    the one-element list [[r]], and MultipleResults with a list of two or
    more records. *)
Theorem get_record_agrees_with_get_records
    (opts : gmap string pyval) (pysnow_exists : bool) (w : world)
    (tablename : string) (n : Z) (kwargs : record) :
  loaded opts pysnow_exists w →
  (2 ≤ n)%Z →
  (n ≤ Py.maxsize)%Z →
  ((get_record opts tablename kwargs w).1 = Ok None
   ↔ (get_records opts tablename n kwargs w).1 = Ok [])
  ∧ (∀ r, (get_record opts tablename kwargs w).1 = Ok (Some r)
          ↔ (get_records opts tablename n kwargs w).1 = Ok [r])
  ∧ ((get_record opts tablename kwargs w).1 = Raise MultipleResults
     ↔ ∃ r1 r2 rs, (get_records opts tablename n kwargs w).1 = Ok (r1 :: r2 :: rs)).
Proof.
  intros Hl Hn Hmax.
  rewrite (get_record_run _ _ _ _ _ Hl), (get_records_run _ _ _ _ _ _ Hl).
  rewrite list_islice_in_range by lia. cbn [fst].
  destruct (Z.to_nat n) as [|[|m]] eqn:Hm; [lia..|].
  destruct (matching w tablename kwargs) as [|r1 [|r2 found]]; cbn [take].
  - split_and!; [done|intros r; split; intros [=]|].
    split; [intros [=]|intros (? & ? & ? & [=])].
  - split_and!; [split; intros [=]| |].
    + intros r. split; intros [= ->]; reflexivity.
    + split; [intros [=]|intros (? & ? & ? & [=])].
  - split_and!; [split; intros [=]|intros r; split; intros [=]|].
    split; [by eexists _, _, _|done].
Qed.

Lemma get_record_agrees_with_get_records_witness :
  loaded Fixture.opts true Fixture.remote_dup
  ∧ (2 ≤ 10)%Z
  ∧ (10 ≤ Py.maxsize)%Z
  ∧ ((get_record Fixture.opts "incident" {[ "number" := "INC23302" ]}
        Fixture.remote_dup).1 = Ok (Some Fixture.inc2)
     ↔ (get_records Fixture.opts "incident" max_results_default
          {[ "number" := "INC23302" ]} Fixture.remote_dup).1 = Ok [Fixture.inc2]).
Proof.
  assert (Hl : loaded Fixture.opts true Fixture.remote_dup) by (vm_compute; reflexivity).
  assert (Hn : (2 ≤ 10)%Z) by lia.
  assert (Hmax : (10 ≤ Py.maxsize)%Z) by (by vm_compute).
  split; [exact Hl|]. split; [exact Hn|]. split; [exact Hmax|].
  exact (proj1 (proj2 (get_record_agrees_with_get_records Fixture.opts true
                         Fixture.remote_dup "incident" 10
                         {[ "number" := "INC23302" ]} Hl Hn Hmax)) Fixture.inc2).
Defined.

(** X15. On a loaded module [get_record] costs one request in every
    outcome: the wire grows by the single GET on "/table/<tablename>"
    carrying the keyword arguments as the query, and nothing is read as a
    stream, also when the answer is None or MultipleResults is raised. *)
Theorem get_record_sends_one_get
    (opts : gmap string pyval) (pysnow_exists : bool) (w : world)
    (tablename : string) (kwargs : record) :
  loaded opts pysnow_exists w →
  wire (get_record opts tablename kwargs w).2
  = wire w ++ [HttpGet ("/table/" +:+ tablename) kwargs].
Proof.
  intros Hl. by rewrite (get_record_run _ _ _ _ _ Hl).
Qed.

Lemma get_record_sends_one_get_witness :
  loaded Fixture.opts true Fixture.remote_dup
  ∧ wire (get_record Fixture.opts "incident" {[ "number" := "INC23301" ]}
            Fixture.remote_dup).2
    = [HttpGet "/table/incident" {[ "number" := "INC23301" ]}].
Proof.
  assert (Hl : loaded Fixture.opts true Fixture.remote_dup) by (vm_compute; reflexivity).
  split; [exact Hl|].
  exact (get_record_sends_one_get Fixture.opts true Fixture.remote_dup
           "incident" {[ "number" := "INC23301" ]} Hl).
Defined.

(* --------------------------------------------------------------------- *)
(* A filter on the field "tablename"                                       *)
(* --------------------------------------------------------------------- *)

(** X16. [update_record] cannot filter on a field named "tablename": the
    filter is passed to [_get_response] as keyword arguments, and the key
    collides with its first parameter. Whatever the configuration, the
    table and the rest of the query string, the call raises TypeError
    and the world is as before: nothing logged, nothing sent, no table
    changed. *)
Theorem update_record_tablename_filter_refused
    (opts : gmap string pyval) (w : world)
    (tablename rest : string) (payload : record) :
  update_record opts tablename ("tablename=" +:+ rest) payload w
  = (Raise TypeError, w).
Proof.
  apply update_record_tablename_key
    with (v := default "" (head (Py.split "=" rest))).
  change ("tablename=" +:+ rest) with ("tablename" +:+ String "=" rest).
  by apply query_of_parts.
Qed.
